(** * A DCA trading strategy: the pipeline components and the exchange client

    A shallow embedding of [strategy.py] (the updater [LiveUpdater], the
    decider [DcaDecider], the executor [LiveExecutor]) and of
    [eops_exchange.py] (the REST client [EopsLiveExchange]), followed by the
    properties of the specification stated and settled on that embedding.

    Python values are a small universe of JSON-like values; exceptions are an
    explicit result type; everything a component does to the outside (log
    records, events put on the bus, exchange calls, HTTP requests, socket
    operations) is appended to a trace. *)

From Stdlib Require Import ZArith List String Ascii Bool Lia.
From Stdlib Require Import SpecFloat DecimalString DecimalZ.
Import ListNotations.

Set Warnings "-register-all".

Local Open Scope string_scope.
Local Open Scope list_scope.
Local Open Scope Z_scope.

(* ================================================================== *)
(** ** Python values, exceptions and results *)

Module Py.

(** The values that configuration dictionaries and decoded JSON messages
    hold.  A [dict] keeps its insertion order; its keys are strings.
    Floats are IEEE-754 doubles in the Standard Library's specification
    format (sign, mantissa, exponent). *)
Inductive pyval : Type :=
| PyNone
| PyBool (b : bool)
| PyInt (n : Z)
| PyFloat (f : spec_float)
| PyStr (s : string)
| PyList (l : list pyval)
| PyDict (d : list (string * pyval)).

Definition dict : Type := list (string * pyval).

(** The classes of exceptions the two modules raise or catch.  All of them
    derive from [Exception].  [RequestException] stands for
    [requests.RequestException] and its subclasses ([HTTPError],
    [ConnectionError], [Timeout], ...), named by [kind]; [resp] is the
    exception's [response] attribute as (status code, text), when it has
    one.  [OtherException] is any further subclass of [Exception]. *)
Inductive exn : Type :=
| AttributeError
| KeyError
| TypeError
| ZeroDivisionError
| OverflowError
| ValueError
| JSONDecodeError
| ConnectionClosed
| ConnectionRefusedError
| RequestException (kind : string) (resp : option (Z * string))
| OtherException (name : string).

Inductive result (A : Type) : Type :=
| Ok (a : A)
| Raise (e : exn).
Arguments Ok {A} a.
Arguments Raise {A} e.

(** [bool(v)]: Python truthiness, as [all([...])] and [if v] use it. *)
Definition truthy (v : pyval) : bool :=
  match v with
  | PyNone => false
  | PyBool b => b
  | PyInt n => negb (n =? 0)
  | PyFloat (S754_zero _) => false
  | PyFloat _ => true
  | PyStr s => negb (String.eqb s "")
  | PyList [] => false
  | PyList _ => true
  | PyDict [] => false
  | PyDict _ => true
  end.

(** [all(vs)] *)
Definition all (vs : list pyval) : bool := forallb truthy vs.

Fixpoint lookup (d : dict) (k : string) : option pyval :=
  match d with
  | [] => None
  | (k', v) :: rest => if String.eqb k k' then Some v else lookup rest k
  end.

(** [d.get(k, default)] on a dictionary. *)
Definition dict_get (d : dict) (k : string) (default : pyval) : pyval :=
  match lookup d k with
  | Some v => v
  | None => default
  end.

(** [v.get(k, default)] on any value: only dictionaries have the method. *)
Definition get (v : pyval) (k : string) (default : pyval) : result pyval :=
  match v with
  | PyDict d => Ok (dict_get d k default)
  | _ => Raise AttributeError
  end.

(** [v[k]] with a string key. *)
Definition subscript (v : pyval) (k : string) : result pyval :=
  match v with
  | PyDict d =>
      match lookup d k with
      | Some x => Ok x
      | None => Raise KeyError
      end
  | _ => Raise TypeError
  end.

(** [v == s] for a string literal [s]. *)
Definition eq_str (v : pyval) (s : string) : bool :=
  match v with
  | PyStr t => String.eqb t s
  | _ => false
  end.

(** [v in [s1, ..., sn]] for string literals. *)
Definition in_strs (v : pyval) (ss : list string) : bool :=
  existsb (eq_str v) ss.

Fixpoint chars (s : string) : list pyval :=
  match s with
  | EmptyString => []
  | String c rest => PyStr (String c EmptyString) :: chars rest
  end.

(** [for x in v]: the items the loop visits. *)
Definition iter (v : pyval) : result (list pyval) :=
  match v with
  | PyList l => Ok l
  | PyDict d => Ok (map (fun kv => PyStr (fst kv)) d)
  | PyStr s => Ok (chars s)
  | _ => Raise TypeError
  end.

(** [float(n)] for an integer: round to nearest even on 53 bits. *)
Definition float_of_int (n : Z) : result spec_float :=
  match binary_normalize 53 1024 n 0 false with
  | S754_infinity _ => Raise OverflowError
  | f => Ok f
  end.

(** Whether [m1 * 2^e1] is an integer multiple of [m2 * 2^e2]. *)
Definition multiple_of (m1 : positive) (e1 : Z) (m2 : positive) (e2 : Z) : bool :=
  let e := Z.min e1 e2 in
  (Z.pos m1 * 2 ^ (e1 - e)) mod (Z.pos m2 * 2 ^ (e2 - e)) =? 0.

(** [a % b == 0] for an integer [a]: integer remainder for integers and
    booleans, [fmod] after conversion for floats, [TypeError] otherwise. *)
Definition mod_is_zero (a : Z) (b : pyval) : result bool :=
  match b with
  | PyInt k => if k =? 0 then Raise ZeroDivisionError else Ok (a mod k =? 0)
  | PyBool true => Ok true
  | PyBool false => Raise ZeroDivisionError
  | PyFloat w =>
      match float_of_int a with
      | Raise e => Raise e
      | Ok v =>
          match w, v with
          | S754_zero _, _ => Raise ZeroDivisionError
          | S754_nan, _ => Ok false
          | _, S754_zero _ => Ok true
          | S754_finite _ m2 e2, S754_finite _ m1 e1 => Ok (multiple_of m1 e1 m2 e2)
          | _, _ => Ok false
          end
      end
  | _ => Raise TypeError
  end.

(** [str(n)] for an integer. *)
Definition str_int (n : Z) : string := NilZero.string_of_int (Z.to_int n).

Definition is_float (v : pyval) : bool :=
  match v with PyFloat _ => true | _ => false end.

(** What the interpreter's library provides and the modules call:
    [json.loads], [json.dumps] and [str].  [json_loads] raises
    [JSONDecodeError] on text that is not JSON. *)
Class Runtime : Type := {
  json_loads : string -> result pyval;
  json_dumps : pyval -> string;
  str : pyval -> string
}.

End Py.
Import Py.

(* ================================================================== *)
(** ** Events, log records and the trace of effects *)

Inductive EventType : Type := MARKET | ORDER | FILL.

Record Event : Type := mkEvent { kind : EventType; data : pyval }.

Inductive level : Type := DEBUG | INFO | WARNING | ERROR.

(** What a log message interpolates. *)
Inductive logarg : Type :=
| V (v : pyval)
| X (e : exn)
| Ev (e : Event)
| T (s : string).

(** A log record: the message's text with its interpolated values kept
    apart. *)
Record log_record : Type := mkLog { lvl : level; text : string; args : list logarg }.

(** An HTTP request as [session.post] receives it. *)
Record Request : Type := mkRequest {
  url : string;
  headers : list (string * pyval);
  body : string;
  timeout : Z
}.

(** What a component does to the outside, in order. *)
Inductive action : Type :=
| Log (r : log_record)                          (* self.log.* / log.* *)
| Put (e : Event)                               (* self.event_bus.put *)
| Order (symbol side amount : pyval)            (* exchange.create_market_order *)
| Post (r : Request)                            (* session.post *)
| Connect (ws_url : pyval) (hdrs : list (string * pyval)) (* websockets.connect *)
| Send (payload : string)                       (* websocket.send *)
| Close                                         (* leaving [async with] *)
| Sleep (seconds : Z).                          (* asyncio.sleep *)

Definition trace : Type := list action.

Fixpoint events_of (tr : trace) : list Event :=
  match tr with
  | [] => []
  | Put e :: rest => e :: events_of rest
  | _ :: rest => events_of rest
  end.

Fixpoint logs_of (tr : trace) : list log_record :=
  match tr with
  | [] => []
  | Log r :: rest => r :: logs_of rest
  | _ :: rest => logs_of rest
  end.

Fixpoint orders_of (tr : trace) : list (pyval * pyval * pyval) :=
  match tr with
  | [] => []
  | Order s d a :: rest => (s, d, a) :: orders_of rest
  | _ :: rest => orders_of rest
  end.

Fixpoint posts_of (tr : trace) : list Request :=
  match tr with
  | [] => []
  | Post r :: rest => r :: posts_of rest
  | _ :: rest => posts_of rest
  end.

Fixpoint connects_of (tr : trace) : nat :=
  match tr with
  | [] => 0%nat
  | Connect _ _ :: rest => S (connects_of rest)
  | _ :: rest => connects_of rest
  end.

Fixpoint sleeps_of (tr : trace) : list Z :=
  match tr with
  | [] => []
  | Sleep n :: rest => n :: sleeps_of rest
  | _ :: rest => sleeps_of rest
  end.

(* ================================================================== *)
(** ** A monad for method bodies: state, exceptions, trace

    A computation takes the object's state and returns its result (a value
    or a raised exception), the state it leaves and the effects it had.  A
    raised exception keeps the state changes and effects made before it. *)

Module M.

Definition t (S A : Type) : Type := S -> result A * S * trace.

Definition ret {S A} (a : A) : t S A := fun s => (Ok a, s, []).

Definition bind {S A B} (m : t S A) (k : A -> t S B) : t S B :=
  fun s =>
    match m s with
    | (Ok a, s1, tr1) =>
        match k a s1 with
        | (r, s2, tr2) => (r, s2, tr1 ++ tr2)
        end
    | (Raise e, s1, tr1) => (Raise e, s1, tr1)
    end.

Definition lift {S A} (r : result A) : t S A := fun s => (r, s, []).

Definition emit {S} (a : action) : t S unit := fun s => (Ok tt, s, [a]).

Definition read {S} : t S S := fun s => (Ok s, s, []).

Definition write {S} (s' : S) : t S unit := fun _ => (Ok tt, s', []).

(** [try: body  except <handled>: handler] where [handler e] is [None]
    for an exception no clause matches. *)
Definition try_except {S A} (body : t S A) (handler : exn -> option (t S A)) : t S A :=
  fun s =>
    match body s with
    | (Ok a, s1, tr1) => (Ok a, s1, tr1)
    | (Raise e, s1, tr1) =>
        match handler e with
        | Some h =>
            match h s1 with
            | (r, s2, tr2) => (r, s2, tr1 ++ tr2)
            end
        | None => (Raise e, s1, tr1)
        end
    end.

End M.

Declare Scope monad_scope.
Notation "x <- c1 ;; c2" := (M.bind c1 (fun x => c2))
  (at level 61, c1 at next level, right associativity) : monad_scope.
Notation "c1 ;; c2" := (M.bind c1 (fun _ => c2))
  (at level 61, right associativity) : monad_scope.
Local Open Scope monad_scope.

Definition log {S} (l : level) (text : string) (args : list logarg) : M.t S unit :=
  M.emit (Log (mkLog l text args)).

Definition put {S} (e : Event) : M.t S unit := M.emit (Put e).

(* ================================================================== *)
(** ** strategy.py: DcaDecider *)

Module DcaDecider.

(** The decider's fields. *)
Record self : Type := mkSelf {
  tick_count : Z;
  buy_interval : pyval;
  buy_amount : pyval;
  symbol : pyval
}.

(** The literal [0.01], as the double nearest to it. *)
Definition float_0_01 : spec_float := S754_finite false 5764607523034235 (-59).

(** [__init__]: reads the three parameters; the two numeric ones default. *)
Definition __init__ (params : dict) : self :=
  {| tick_count := 0;
     buy_interval := dict_get params "buy_interval_ticks" (PyInt 5);
     buy_amount := dict_get params "buy_amount" (PyFloat float_0_01);
     symbol := dict_get params "symbol" PyNone |}.

Definition subscribed_events : list EventType := [MARKET].

Definition order_event (d : self) : Event :=
  mkEvent ORDER
    (PyDict [("symbol", symbol d); ("side", PyStr "buy"); ("amount", buy_amount d)]).

(** The decider's fields after [self.tick_count += 1]. *)
Definition ticked (d : self) : self :=
  mkSelf (tick_count d + 1) (buy_interval d) (buy_amount d) (symbol d).

(** [process(event)] *)
Definition process (event : Event) : M.t self unit :=
  d0 <- M.read ;;
  M.write (ticked d0) ;;
  d <- M.read ;;
  current_price <- M.lift (get (data event) "price" PyNone) ;;
  log INFO "Tick {}: Market price for {} is {}"
      [V (PyInt (tick_count d)); V (symbol d); V current_price] ;;
  hit <- M.lift (mod_is_zero (tick_count d) (buy_interval d)) ;;
  if (hit : bool) then
    log INFO "Buy interval reached. Creating ORDER event." [] ;;
    put (order_event d)
  else M.ret tt.

(** A run of the decider: the hosting framework (the eops library, which
    the strategy plugs into) calls [process] once for each subscribed event,
    in publish order.  The run ends at the first exception that leaves
    [process]. *)
Fixpoint feed (events : list Event) : M.t self unit :=
  match events with
  | [] => M.ret tt
  | e :: rest => process e ;; feed rest
  end.

(** A MARKET event whose payload is a mapping. *)
Definition market_event (payload : dict) : Event := mkEvent MARKET (PyDict payload).

End DcaDecider.

(* ================================================================== *)
(** ** strategy.py: LiveUpdater *)

Module LiveUpdater.

Section WithRuntime.
Context {rt : Runtime}.

(** The body of [for order_data in ...] in [_process_ws_message]. *)
Fixpoint dispatch_orders (orders : list pyval) : M.t unit unit :=
  match orders with
  | [] => M.ret tt
  | order_data :: rest =>
      status <- M.lift (get order_data "status" PyNone) ;;
      (if in_strs status ["filled"; "partially_filled"] then
         let fill_event := mkEvent FILL order_data in
         log INFO "Dispatching FILL event from order update: {}" [Ev fill_event] ;;
         put fill_event
       else M.ret tt) ;;
      dispatch_orders rest
  end.

(** Whether an order's status makes it a fill. *)
Definition is_fill (order_data : dict) : bool :=
  in_strs (dict_get order_data "status" PyNone) ["filled"; "partially_filled"].

(** The two [except] clauses of [_process_ws_message]. *)
Definition on_message_error (message : string) (e : exn) : option (M.t unit unit) :=
  match e with
  | JSONDecodeError =>
      Some (log WARNING "Received non-JSON WebSocket message: {}" [T message])
  | _ =>
      Some (log ERROR "Error processing WebSocket message: {}" [X e])
  end.

(** [_process_ws_message(message)] *)
Definition _process_ws_message (message : string) : M.t unit unit :=
  M.try_except
    (data <- M.lift (json_loads message) ;;
     event_type_str <- M.lift (get data "event_type" PyNone) ;;
     if eq_str event_type_str "Ticker" then
       payload <- M.lift (subscript data "data") ;;
       let market_event := mkEvent MARKET payload in
       log DEBUG "Dispatching MARKET event: {}" [Ev market_event] ;;
       put market_event
     else if eq_str event_type_str "OrderUpdate" then
       batch <- M.lift (get data "data" (PyList [])) ;;
       orders <- M.lift (iter batch) ;;
       dispatch_orders orders
     else M.ret tt)
    (on_message_error message).

(** *** The connection loop [_ws_loop]

    The loop is a machine over its program points.  Each step is one
    completed operation on the outside world, whose outcome at logical
    time [t] the environment gives: the value read from [self.active]
    (the hosting strategy sets it concurrently), the outcome of a
    connection attempt, of sending the subscription, and of waiting for
    the next message.  Exceptions that are not [Exception]s
    (cancellation, interpreter exit) are outside the model. *)

Inductive incoming : Type :=
| Message (m : string)       (* the iterator yields a message *)
| Exhausted                  (* the iterator ends: closed normally *)
| Broken (e : exn).          (* the iterator raises *)

Record env : Type := mkEnv {
  active : nat -> bool;
  connect : nat -> result unit;
  send : nat -> result unit;
  recv : nat -> incoming
}.

Inductive pc : Type :=
| AtWhile                    (* evaluating [while self.active] *)
| Connecting                 (* entering [async with websockets.connect] *)
| Subscribing                (* awaiting [websocket.send] *)
| Receiving                  (* awaiting the next item of [async for] *)
| GotMessage (m : string)    (* evaluating [if not self.active] *)
| Sleeping                   (* awaiting [asyncio.sleep(5)] *)
| Returned.                  (* [_ws_loop] has returned *)

(** The local variables set before the loop. *)
Record locals : Type := mkLocals { ws_url : pyval; jwt : pyval; symbol : pyval }.

Definition headers_of (l : locals) : list (string * pyval) :=
  [("Authorization", PyStr ("Bearer " ++ str (jwt l)))].

Definition topics (l : locals) : pyval :=
  PyList [PyStr ("tickers:" ++ str (symbol l)); PyStr "private:orders"].

Definition sub_msg (l : locals) : pyval :=
  PyDict [("op", PyStr "subscribe"); ("args", topics l)].

(** The two [except] clauses of the loop: both log and sleep 5 seconds. *)
Definition on_loop_error (e : exn) : trace :=
  match e with
  | ConnectionClosed | ConnectionRefusedError =>
      [Log (mkLog ERROR "WebSocket connection error: {}. Reconnecting in 5s..." [X e]);
       Sleep 5]
  | _ =>
      [Log (mkLog ERROR "An unexpected error occurred in WebSocket loop: {}" [X e]);
       Sleep 5]
  end.

Definition step (l : locals) (w : env) (t : nat) (p : pc) : pc * trace :=
  match p with
  | AtWhile =>
      if active w t then (Connecting, [Connect (ws_url l) (headers_of l)])
      else (Returned, [])
  | Connecting =>
      match connect w t with
      | Ok _ =>
          (Subscribing,
           [Log (mkLog INFO "Successfully connected to WebSocket at {}" [V (ws_url l)]);
            Send (json_dumps (sub_msg l))])
      | Raise e => (Sleeping, on_loop_error e)
      end
  | Subscribing =>
      match send w t with
      | Ok _ => (Receiving, [Log (mkLog INFO "Subscribed to topics: {}" [V (topics l)])])
      | Raise e => (Sleeping, Close :: on_loop_error e)
      end
  | Receiving =>
      match recv w t with
      | Message m => (GotMessage m, [])
      | Exhausted => (AtWhile, [Close])
      | Broken e => (Sleeping, Close :: on_loop_error e)
      end
  | GotMessage m =>
      if active w t then
        match _process_ws_message m tt with
        | (Ok _, _, tr) => (Receiving, tr)
        | (Raise e, _, tr) => (Sleeping, tr ++ Close :: on_loop_error e)
        end
      else (AtWhile, [Close])
  | Sleeping => (AtWhile, [])
  | Returned => (Returned, [])
  end.


(** [n] steps from program point [p] at time [t]. *)
Fixpoint run (l : locals) (w : env) (t : nat) (n : nat) (p : pc) : pc * trace :=
  match n with
  | O => (p, [])
  | S n' =>
      let '(p1, tr1) := step l w t p in
      let '(p2, tr2) := run l w (S t) n' p1 in
      (p2, tr1 ++ tr2)
  end.

(** The prologue of [_ws_loop]: read the parameters and return at once
    ([None]) when one is missing or empty. *)
Definition prologue (params : dict) : M.t unit (option locals) :=
  let l := mkLocals (dict_get params "ws_url" PyNone)
                    (dict_get params "jwt" PyNone)
                    (dict_get params "symbol" PyNone) in
  if negb (all [ws_url l; jwt l; symbol l]) then
    log ERROR "Updater requires 'ws_url', 'jwt', and 'symbol' in STRATEGY_PARAMS." [] ;;
    M.ret None
  else M.ret (Some l).

(** [_ws_loop()], observed for [n] steps after its prologue: the
    program point reached, or the exception that left the coroutine. *)
Definition _ws_loop (params : dict) (w : env) (n : nat) : result pc * trace :=
  match prologue params tt with
  | (Ok None, _, tr0) => (Ok Returned, tr0)
  | (Ok (Some l), _, tr0) =>
      let '(p, tr) := run l w 0 n AtWhile in (Ok p, tr0 ++ tr)
  | (Raise e, _, tr0) => (Raise e, tr0)
  end.

End WithRuntime.

End LiveUpdater.

(* ================================================================== *)
(** ** strategy.py: LiveExecutor *)

Module LiveExecutor.

(** The [create_market_order] method of the object stored under
    [context["exchange"]]: any implementation of [BaseExchange]. *)
Definition exchange : Type := pyval -> pyval -> pyval -> M.t unit pyval.

Definition subscribed_events : list EventType := [ORDER].

(** [process(event)]; [ctx] is what [self.strategy.context] holds under
    ["exchange"], [None] when the key is absent. *)
Definition process (ctx : option exchange) (event : Event) : M.t unit unit :=
  let order_data := data event in
  log INFO "Executor received ORDER event: {}" [V order_data] ;;
  M.try_except
    (ex <- M.lift (match ctx with Some x => Ok x | None => Raise KeyError end) ;;
     symbol <- M.lift (get order_data "symbol" PyNone) ;;
     side <- M.lift (get order_data "side" PyNone) ;;
     amount <- M.lift (get order_data "amount" PyNone) ;;
     M.emit (Order symbol side amount) ;;
     _ <- ex symbol side amount ;;
     log INFO "Order successfully sent to the exchange API." [])
    (fun e => Some (log ERROR "Failed to execute order: {}" [X e])).

(** The record logged on entry, and the one logged for the outcome of
    the exchange call. *)
Definition received_log (order_data : pyval) : action :=
  Log (mkLog INFO "Executor received ORDER event: {}" [V order_data]).

Definition outcome_log (r : result pyval) : action :=
  match r with
  | Ok _ => Log (mkLog INFO "Order successfully sent to the exchange API." [])
  | Raise e => Log (mkLog ERROR "Failed to execute order: {}" [X e])
  end.

(** The consuming loop: the hosting framework (the eops library) calls
    [process] once for each ORDER event, in order; an exception leaving
    [process] would end the loop. *)
Fixpoint consume (ctx : option exchange) (events : list Event) : M.t unit unit :=
  match events with
  | [] => M.ret tt
  | e :: rest => process ctx e ;; consume ctx rest
  end.

End LiveExecutor.

(* ================================================================== *)
(** ** hashlib.sha256 and hmac, on byte strings

    Bytes are integers in 0..255, words are integers in 0..2^32-1 with the
    wrap-around written out. *)

Module Sha256.

Definition w32 (x : Z) : Z := x mod 2 ^ 32.

Definition rotr (n x : Z) : Z := Z.lor (Z.shiftr x n) (w32 (Z.shiftl x (32 - n))).

Definition ch (x y z : Z) : Z :=
  Z.lxor (Z.land x y) (Z.land (Z.lxor x (2 ^ 32 - 1)) z).

Definition maj (x y z : Z) : Z :=
  Z.lxor (Z.lxor (Z.land x y) (Z.land x z)) (Z.land y z).

Definition bsig0 (x : Z) : Z := Z.lxor (Z.lxor (rotr 2 x) (rotr 13 x)) (rotr 22 x).
Definition bsig1 (x : Z) : Z := Z.lxor (Z.lxor (rotr 6 x) (rotr 11 x)) (rotr 25 x).
Definition ssig0 (x : Z) : Z := Z.lxor (Z.lxor (rotr 7 x) (rotr 18 x)) (Z.shiftr x 3).
Definition ssig1 (x : Z) : Z := Z.lxor (Z.lxor (rotr 17 x) (rotr 19 x)) (Z.shiftr x 10).

(** The round constants and the initial hash value are the first 32 bits
    of the fractional parts of the cube roots, respectively square roots,
    of the first primes; they are computed rather than tabulated. *)
Definition is_prime (n : Z) : bool :=
  forallb (fun d => negb (n mod d =? 0) || (n <=? d))
          (map Z.of_nat (seq 2 (Z.to_nat (Z.sqrt n)))).

Definition primes_below (n : nat) : list Z :=
  filter is_prime (map Z.of_nat (seq 2 n)).

Fixpoint cube_root_bits (n : Z) (bits : nat) (r : Z) : Z :=
  match bits with
  | O => r
  | S b =>
      let r' := r + 2 ^ Z.of_nat b in
      cube_root_bits n b (if r' * r' * r' <=? n then r' else r)
  end.

Definition cube_root (n : Z) : Z := cube_root_bits n 48 0.

Definition K : list Z :=
  Eval vm_compute in
    map (fun p => w32 (cube_root (p * 2 ^ 96))) (firstn 64 (primes_below 320)).

Record regs : Type := mkRegs { ra : Z; rb : Z; rc : Z; rd : Z; re : Z; rf : Z; rg : Z; rh : Z }.

Definition H0 : regs :=
  Eval vm_compute in
    let h := fun i => w32 (Z.sqrt (nth i (primes_below 20) 0 * 2 ^ 64)) in
    mkRegs (h 0%nat) (h 1%nat) (h 2%nat) (h 3%nat) (h 4%nat) (h 5%nat) (h 6%nat) (h 7%nat).

(** Big-endian bytes of [x], [n] of them. *)
Fixpoint be_bytes (n : nat) (x : Z) : list Z :=
  match n with
  | O => []
  | S n' => (x / 2 ^ (8 * Z.of_nat n')) mod 256 :: be_bytes n' x
  end.

(** Padding: a 1 bit, zeros up to 56 modulo 64 bytes, the length in bits. *)
Definition pad (msg : list Z) : list Z :=
  let l := Z.of_nat (List.length msg) in
  msg ++ [128] ++ repeat 0 (Z.to_nat ((55 - l) mod 64)) ++ be_bytes 8 (8 * l).

Fixpoint words (bs : list Z) : list Z :=
  match bs with
  | a :: b :: c :: d :: rest =>
      (a * 2 ^ 24 + b * 2 ^ 16 + c * 2 ^ 8 + d) :: words rest
  | _ => []
  end.

(** The blocks of 16 words; [n] bounds their number. *)
Fixpoint blocks (n : nat) (ws : list Z) : list (list Z) :=
  match n, ws with
  | S n', _ :: _ => firstn 16 ws :: blocks n' (skipn 16 ws)
  | _, _ => []
  end.

(** One round: [win] holds the 16 latest words of the message schedule,
    the word of this round first. *)
Definition round (st : regs * list Z) (k : Z) : regs * list Z :=
  let '(r, win) := st in
  let wt := nth 0 win 0 in
  let t1 := w32 (rh r + bsig1 (re r) + ch (re r) (rf r) (rg r) + k + wt) in
  let t2 := w32 (bsig0 (ra r) + maj (ra r) (rb r) (rc r)) in
  (mkRegs (w32 (t1 + t2)) (ra r) (rb r) (rc r) (w32 (rd r + t1)) (re r) (rf r) (rg r),
   tl win ++ [w32 (ssig1 (nth 14 win 0) + nth 9 win 0 + ssig0 (nth 1 win 0) + wt)]).

Definition compress (h : regs) (block : list Z) : regs :=
  let r := fst (fold_left round K (h, block)) in
  mkRegs (w32 (ra h + ra r)) (w32 (rb h + rb r)) (w32 (rc h + rc r)) (w32 (rd h + rd r))
         (w32 (re h + re r)) (w32 (rf h + rf r)) (w32 (rg h + rg r)) (w32 (rh h + rh r)).

Definition digest_of (r : regs) : list Z :=
  flat_map (be_bytes 4) [ra r; rb r; rc r; rd r; re r; rf r; rg r; rh r].

(** [hashlib.sha256(msg).digest()] *)
Definition sha256 (msg : list Z) : list Z :=
  let ws := words (pad msg) in
  digest_of (fold_left compress (blocks (List.length ws) ws) H0).

(** [hmac.new(key, msg, hashlib.sha256).digest()] *)
Definition hmac (key msg : list Z) : list Z :=
  let key0 := if (64 <? Z.of_nat (List.length key)) then sha256 key else key in
  let key1 := key0 ++ repeat 0 (64 - List.length key0)%nat in
  let ikey := map (Z.lxor 54) key1 in
  let okey := map (Z.lxor 92) key1 in
  sha256 (okey ++ sha256 (ikey ++ msg)).

Definition hex_digit (n : Z) : ascii :=
  match String.get (Z.to_nat n) "0123456789abcdef" with
  | Some c => c
  | None => "0"%char
  end.

(** [.hex()] of a byte string: two lowercase digits per byte. *)
Fixpoint hex (bs : list Z) : string :=
  match bs with
  | [] => ""
  | b :: rest => String (hex_digit (b / 16)) (String (hex_digit (b mod 16)) (hex rest))
  end.


(** [s.encode('utf-8')]: strings hold their UTF-8 bytes. *)
Definition encode (s : string) : list Z :=
  map (fun c => Z.of_N (N_of_ascii c)) (list_ascii_of_string s).

(** [hmac.new(key.encode(), msg.encode(), hashlib.sha256).hexdigest()] *)
Definition hmac_hexdigest (key msg : string) : string :=
  hex (hmac (encode key) (encode msg)).

End Sha256.


(* ================================================================== *)
(** ** eops_exchange.py: EopsLiveExchange *)

Module EopsLiveExchange.

Record self : Type := mkSelf { base_url : pyval; api_key : pyval; secret_key : pyval }.

(** [__init__(params)]: the three parameters must be present and
    non-empty. *)
Definition __init__ (params : dict) : result self :=
  let s := mkSelf (dict_get params "base_url" PyNone)
                  (dict_get params "api_key" PyNone)
                  (dict_get params "secret_key" PyNone) in
  if negb (all [base_url s; api_key s; secret_key s]) then Raise ValueError
  else Ok s.

(** [c.upper()] on one character: the letters a-z; every other byte is
    left as it is (Python's [str.upper] on ASCII text). *)
Definition upper_char (c : ascii) : ascii :=
  let n := N_of_ascii c in
  if (97 <=? n)%N && (n <=? 122)%N then ascii_of_N (n - 32) else c.

Fixpoint upper (s : string) : string :=
  match s with
  | EmptyString => EmptyString
  | String c rest => String (upper_char c) (upper rest)
  end.

(** The string the signature is computed over. *)
Definition prehash_string (timestamp method path body_str : string) : string :=
  (timestamp ++ upper method ++ path ++ body_str)%string.

(** [v.encode('utf-8')]: a method of strings only. *)
Definition encode_utf8 (v : pyval) : result string :=
  match v with
  | PyStr s => Ok s
  | _ => Raise AttributeError
  end.

(** [_get_auth_headers(method, path, body_str)]; [now] is
    [int(time.time())] at the call. *)
Definition _get_auth_headers (s : self) (now : Z) (method path body_str : string)
  : result (list (string * pyval)) :=
  let timestamp := str_int now in
  let prehash := prehash_string timestamp method path body_str in
  match encode_utf8 (secret_key s) with
  | Raise e => Raise e
  | Ok key =>
      let signature := Sha256.hmac_hexdigest key prehash in
      Ok [("Content-Type", PyStr "application/json");
          ("X-API-KEY", api_key s);
          ("X-API-TIMESTAMP", PyStr timestamp);
          ("X-API-SIGN", PyStr signature)]
  end.

(** A [requests.Response]: the status code, the body's text and what
    [response.json()] does on it. *)
Record Response : Type := mkResponse {
  status_code : Z;
  resp_text : string;
  json : result pyval
}.

(** What [session.post] does with a request: it raises, or returns a
    response. *)
Definition network : Type := Request -> result Response.

(** [response.ok]: the status is not a 4xx or 5xx one. *)
Definition ok (status : Z) : bool := negb ((400 <=? status) && (status <? 600)).

(** [response.raise_for_status()] *)
Definition raise_for_status (r : Response) : result unit :=
  if ok (status_code r) then Ok tt
  else Raise (RequestException "HTTPError" (Some (status_code r, resp_text r))).

(** [e.response.text if e.response else 'N/A']: a response is true when
    it is [ok]. *)
Definition response_text (resp : option (Z * string)) : string :=
  match resp with
  | Some (status, txt) => if ok status then txt else "N/A"
  | None => "N/A"
  end.

(** The record the [except] clause of [create_market_order] logs. *)
Definition failure_log (e : exn) (shown : string) : action :=
  Log (mkLog ERROR "Failed to create order: {}. Response: {}" [X e; T shown]).

Section WithRuntime.
Context {rt : Runtime}.

Definition order_body (symbol side amount : pyval) : pyval :=
  PyDict [("instrument_id", symbol);
          ("side", side);
          ("order_type", PyStr "market");
          ("quantity", PyStr (str amount))].

Definition post (net : network) (req : Request) : M.t unit Response :=
  M.emit (Post req) ;; M.lift (net req).

(** The request that [create_market_order] posts for a client whose secret
    key is the string [key]: the body is serialized once, and the same
    string is signed and sent. *)
Definition signed_request (base api : pyval) (key : string) (now : Z)
           (symbol side amount : pyval) : Request :=
  let body_str := json_dumps (order_body symbol side amount) in
  mkRequest (str base ++ "/api/v1/trade/orders")
            [("Content-Type", PyStr "application/json");
             ("X-API-KEY", api);
             ("X-API-TIMESTAMP", PyStr (str_int now));
             ("X-API-SIGN",
              PyStr (Sha256.hmac_hexdigest key
                       (prehash_string (str_int now) "POST" "/api/v1/trade/orders" body_str)))]
            body_str 10.

(** [create_market_order(symbol, side, amount)] *)
Definition create_market_order (s : self) (now : Z) (net : network)
           (symbol side amount : pyval) : M.t unit pyval :=
  let path := "/api/v1/trade/orders" in
  let body_str := json_dumps (order_body symbol side amount) in
  headers <- M.lift (_get_auth_headers s now "POST" path body_str) ;;
  M.try_except
    (response <- post net (mkRequest (str (base_url s) ++ path) headers body_str 10) ;;
     M.lift (raise_for_status response) ;;
     M.lift (json response))
    (fun e =>
       match e with
       | RequestException _ resp =>
           Some (M.emit (failure_log e (response_text resp)) ;;
                 M.ret (PyDict []))
       | _ => None
       end).

End WithRuntime.

End EopsLiveExchange.


(* ================================================================== *)
(** ** An environment for the worked examples

    The properties below hold for every runtime, network and exchange.
    The worked examples need concrete ones: a [str] and a [json.dumps] that
    are exact on the values the examples use (strings without characters to
    escape, integers, booleans, [None], the float literals 0.01 and 0.02),
    and a [json.loads] that decodes the example messages and rejects any
    other text. *)

Module Demo.

Definition quote_char : ascii := ascii_of_nat 34.

(** Writes every apostrophe of [s] as a double quote. *)
Fixpoint dq (s : string) : string :=
  match s with
  | EmptyString => EmptyString
  | String c rest => String (if Ascii.eqb c "'"%char then quote_char else c) (dq rest)
  end.

Definition quoted (s : string) : string :=
  (String quote_char s ++ String quote_char EmptyString)%string.

(** The literal [0.02], as the double nearest to it. *)
Definition float_0_02 : spec_float := S754_finite false 5764607523034235 (-58).

Definition float_repr (f : spec_float) : string :=
  match f with
  | S754_finite false 5764607523034235 (-59) => "0.01"
  | S754_finite false 5764607523034235 (-58) => "0.02"
  | S754_zero false => "0.0"
  | _ => "nan"
  end.

Fixpoint join (sep : string) (items : list string) : string :=
  match items with
  | [] => EmptyString
  | [x] => x
  | x :: rest => (x ++ sep ++ join sep rest)%string
  end.

Fixpoint dumps (v : pyval) : string :=
  match v with
  | PyNone => "null"
  | PyBool true => "true"
  | PyBool false => "false"
  | PyInt n => str_int n
  | PyFloat f => float_repr f
  | PyStr s => quoted s
  | PyList l => ("[" ++ join ", " (map dumps l) ++ "]")%string
  | PyDict d =>
      ("{" ++ join ", " (map (fun kv => quoted (fst kv) ++ ": " ++ dumps (snd kv)) d) ++ "}")%string
  end.

Definition to_str (v : pyval) : string :=
  match v with
  | PyNone => "None"
  | PyBool true => "True"
  | PyBool false => "False"
  | PyInt n => str_int n
  | PyFloat f => float_repr f
  | PyStr s => s
  | _ => dumps v
  end.

(** An order update with one filled and one open order. *)
Definition batch_message : string :=
  dq "{'event_type': 'OrderUpdate', 'data': [{'id': 1, 'status': 'filled'}, {'id': 2, 'status': 'open'}]}".

Definition batch_orders : list dict :=
  [[("id", PyInt 1); ("status", PyStr "filled")];
   [("id", PyInt 2); ("status", PyStr "open")]].

(** A ticker message that lacks its 'data' field. *)
Definition bare_ticker_message : string := dq "{'event_type': 'Ticker'}".

Definition loads (s : string) : result pyval :=
  if String.eqb s batch_message then
    Ok (PyDict [("event_type", PyStr "OrderUpdate"); ("data", PyList (map PyDict batch_orders))])
  else if String.eqb s bare_ticker_message then
    Ok (PyDict [("event_type", PyStr "Ticker")])
  else Raise JSONDecodeError.

Definition runtime : Runtime :=
  {| json_loads := loads; json_dumps := dumps; str := to_str |}.


(** A network on which every connection times out. *)
Definition unreachable : EopsLiveExchange.network :=
  fun _ => Raise (RequestException "ConnectTimeout" None).

(** A world in which the strategy stays active and every connection
    attempt is refused. *)
Definition refusing : LiveUpdater.env :=
  LiveUpdater.mkEnv (fun _ => true) (fun _ => Raise ConnectionRefusedError)
                    (fun _ => Ok tt) (fun _ => LiveUpdater.Exhausted).

(** A world in which the first three connection attempts are refused, the
    fourth succeeds, and the batch message then arrives. *)
Definition recovering : LiveUpdater.env :=
  LiveUpdater.mkEnv (fun _ => true)
                    (fun t => if (t <? 9)%nat then Raise ConnectionRefusedError else Ok tt)
                    (fun _ => Ok tt) (fun _ => LiveUpdater.Message batch_message).

(** A world in which the strategy is deactivated at time 4, while the
    updater waits for a message. *)
Definition stopping : LiveUpdater.env :=
  LiveUpdater.mkEnv (fun t => (t <? 4)%nat) (fun _ => Ok tt)
                    (fun _ => Ok tt) (fun _ => LiveUpdater.Message batch_message).

Definition updater_params : dict :=
  [("ws_url", PyStr "wss://exchange.example/ws"); ("jwt", PyStr "token");
   ("symbol", PyStr "BTC-USD")].

(** An exchange whose order call always raises. *)
Definition broken_exchange : LiveExecutor.exchange :=
  fun _ _ _ => M.lift (Raise (OtherException "RuntimeError")).

Definition client : EopsLiveExchange.self :=
  EopsLiveExchange.mkSelf (PyStr "https://exchange.example") (PyStr "key-1") (PyStr "s3cret").

End Demo.

(* ================================================================== *)
(** ** eops_exchange.py: the connectivity check and the query stubs *)

Module Connectivity.

(** A request as [session.get] receives it in [connect]: a URL and a
    timeout, no headers and no body. *)
Record GetRequest : Type := mkGet { get_url : string; get_timeout : Z }.

(** What [session.get] does with a request. *)
Definition probe : Type := GetRequest -> result EopsLiveExchange.Response.

Section WithRuntime.
Context {rt : Runtime}.

(** The request [connect] sends. *)
Definition instruments_request (s : EopsLiveExchange.self) : GetRequest :=
  mkGet (str (EopsLiveExchange.base_url s) ++ "/api/v1/market/instruments") 5.

(** [connect()]; the state is the list of GET requests the session has
    sent.  The [except] clause logs and re-raises. *)
Definition connect (s : EopsLiveExchange.self) (net : probe) : M.t (list GetRequest) unit :=
  M.try_except
    (let req := instruments_request s in
     sent <- M.read ;;
     M.write (sent ++ [req]) ;;
     response <- M.lift (net req) ;;
     M.lift (EopsLiveExchange.raise_for_status response) ;;
     log INFO "Successfully connected to exchange_r API at {}"
         [V (EopsLiveExchange.base_url s)])
    (fun e =>
       match e with
       | RequestException _ _ =>
           Some (log ERROR "Failed to connect to exchange_r API: {}" [X e] ;;
                 M.lift (Raise e))
       | _ => None
       end).

End WithRuntime.

(** The float [0.0]. *)
Definition zero : pyval := PyFloat (S754_zero false).

(** [get_klines(symbol, timeframe, limit)] *)
Definition get_klines (symbol timeframe limit : pyval) : M.t unit pyval :=
  log WARNING
      "get_klines is not implemented for live trading, as data comes from WebSocket." [] ;;
  M.ret (PyList []).

(** [get_position(symbol)] *)
Definition get_position (symbol : pyval) : M.t unit pyval :=
  log WARNING "get_position is not yet implemented." [] ;;
  M.ret (PyDict [("long", zero); ("short", zero)]).

(** [get_balance()] *)
Definition get_balance : M.t unit pyval :=
  log WARNING "get_balance is not yet implemented." [] ;;
  M.ret (PyDict [("total", zero); ("available", zero)]).

End Connectivity.

(* ================================================================== *)
(** ** The components put together

    [DcaStrategy] creates one updater, one decider and one executor; the
    exchange stored in the strategy's context is the [EopsLiveExchange]
    instance. *)

Module Pipeline.

(** Whether the value configured as the interval is no number at all. *)
Definition not_a_number (v : pyval) : bool :=
  match v with
  | PyNone | PyStr _ | PyList _ | PyDict _ => true
  | PyBool _ | PyInt _ | PyFloat _ => false
  end.

(** Whether a value is a mapping. *)
Definition is_mapping (v : pyval) : bool :=
  match v with PyDict _ => true | _ => false end.



(** The actions a handler may take on the bus and the log. *)
Definition log_or_put (a : action) : bool :=
  match a with Log _ | Put _ => true | _ => false end.

Fixpoint sends_of (tr : trace) : list string :=
  match tr with
  | [] => []
  | Send m :: rest => m :: sends_of rest
  | _ :: rest => sends_of rest
  end.

Fixpoint closes_of (tr : trace) : nat :=
  match tr with
  | [] => 0%nat
  | Close :: rest => S (closes_of rest)
  | _ :: rest => closes_of rest
  end.

(** Whether the updater holds a connection at a program point. *)
Definition holds_connection (p : LiveUpdater.pc) : nat :=
  match p with
  | LiveUpdater.Subscribing | LiveUpdater.Receiving | LiveUpdater.GotMessage _ => 1%nat
  | _ => 0%nat
  end.

(** A world in which the strategy stays active, connections and
    subscriptions succeed, and message [msgs t] arrives at time [t]. *)
Definition steady (msgs : nat -> string) : LiveUpdater.env :=
  LiveUpdater.mkEnv (fun _ => true) (fun _ => Ok tt) (fun _ => Ok tt)
                    (fun t => LiveUpdater.Message (msgs t)).

(** A world in which the strategy stays active and the server closes every
    connection cleanly as soon as it is subscribed. *)
Definition closing : LiveUpdater.env :=
  LiveUpdater.mkEnv (fun _ => true) (fun _ => Ok tt) (fun _ => Ok tt)
                    (fun _ => LiveUpdater.Exhausted).

Section WithRuntime.
Context {rt : Runtime}.

(** The executor's exchange when the context holds the client [s]: its
    [create_market_order], called at clock reading [now] over [net]. *)
Definition exchange_of (s : EopsLiveExchange.self) (now : Z)
           (net : EopsLiveExchange.network) : LiveExecutor.exchange :=
  fun symbol side amount =>
    EopsLiveExchange.create_market_order s now net symbol side amount.

(** The trace of decoding the messages that arrive at times [t], [t + 2],
    ..., one after the other. *)
Fixpoint decoded (msgs : nat -> string) (t n : nat) : trace :=
  match n with
  | O => []
  | S n' => snd (LiveUpdater._process_ws_message (msgs t) tt) ++ decoded msgs (S (S t)) n'
  end.

End WithRuntime.

End Pipeline.

(* ================================================================== *)
(** ** More sample messages *)

Module Samples.

(** The literal [100.5]. *)
Definition float_100_5 : spec_float := S754_finite false 7072058789855232 (-46).

(** A ticker message with a quote payload. *)
Definition ticker_message : string :=
  Demo.dq "{'event_type': 'Ticker', 'data': {'price': 100.5}}".

(** A ticker message whose payload is a bare number. *)
Definition scalar_ticker_message : string :=
  Demo.dq "{'event_type': 'Ticker', 'data': 100.5}".

(** An order update whose second entry is not an order. *)
Definition mixed_batch_message : string :=
  Demo.dq "{'event_type': 'OrderUpdate', 'data': [{'status': 'filled'}, 5, {'status': 'filled'}]}".

Definition loads (s : string) : result pyval :=
  if String.eqb s ticker_message then
    Ok (PyDict [("event_type", PyStr "Ticker");
                ("data", PyDict [("price", PyFloat float_100_5)])])
  else if String.eqb s scalar_ticker_message then
    Ok (PyDict [("event_type", PyStr "Ticker"); ("data", PyFloat float_100_5)])
  else if String.eqb s mixed_batch_message then
    Ok (PyDict [("event_type", PyStr "OrderUpdate");
                ("data", PyList [PyDict [("status", PyStr "filled")];
                                 PyInt 5;
                                 PyDict [("status", PyStr "filled")]])])
  else Demo.loads s.

Definition runtime : Runtime :=
  {| json_loads := loads; json_dumps := Demo.dumps; str := Demo.to_str |}.



End Samples.

(* ================================================================== *)
(** * Properties *)

Arguments Sha256.hmac_hexdigest : simpl never.
Arguments str_int : simpl never.
Arguments String.append : simpl never.

(** ** Traces *)

Lemma events_of_app (a b : trace) : events_of (a ++ b) = events_of a ++ events_of b.
Proof.
  induction a as [|x a IH]; simpl; [reflexivity|].
  destruct x; simpl; rewrite IH; reflexivity.
Qed.

Lemma logs_of_app (a b : trace) : logs_of (a ++ b) = logs_of a ++ logs_of b.
Proof.
  induction a as [|x a IH]; simpl; [reflexivity|].
  destruct x; simpl; rewrite IH; reflexivity.
Qed.

Lemma orders_of_app (a b : trace) : orders_of (a ++ b) = orders_of a ++ orders_of b.
Proof.
  induction a as [|x a IH]; simpl; [reflexivity|].
  destruct x; simpl; rewrite IH; reflexivity.
Qed.

Lemma posts_of_app (a b : trace) : posts_of (a ++ b) = posts_of a ++ posts_of b.
Proof.
  induction a as [|x a IH]; simpl; [reflexivity|].
  destruct x; simpl; rewrite IH; reflexivity.
Qed.

Lemma connects_of_app (a b : trace) :
  connects_of (a ++ b) = (connects_of a + connects_of b)%nat.
Proof.
  induction a as [|x a IH]; simpl; [reflexivity|].
  destruct x; simpl; rewrite IH; reflexivity.
Qed.

Lemma sleeps_of_app (a b : trace) : sleeps_of (a ++ b) = sleeps_of a ++ sleeps_of b.
Proof.
  induction a as [|x a IH]; simpl; [reflexivity|].
  destruct x; simpl; rewrite IH; reflexivity.
Qed.

(** ** The decider *)

Section Decider.
Import DcaDecider.

Lemma order_event_ticked (d : self) : order_event (ticked d) = order_event d.
Proof. reflexivity. Qed.

(** One MARKET event whose payload is a mapping, with an integer interval
    that is not zero: the counter advances and an ORDER goes out exactly
    when the new count is a multiple of the interval. *)
Lemma process_market (d : self) (payload : dict) (k : Z) :
  buy_interval d = PyInt k -> k <> 0 ->
  exists tr,
    process (market_event payload) d = (Ok tt, ticked d, tr) /\
    events_of tr = if (tick_count d + 1) mod k =? 0 then [order_event d] else [].
Proof.
  intros Hk Hnz.
  destruct d as [t bi ba sy]; cbn [buy_interval tick_count] in *; subst bi.
  unfold process, M.bind, M.read, M.write, M.lift, M.ret, log, put, M.emit; simpl.
  destruct (k =? 0) eqn:E; [apply Z.eqb_eq in E; contradiction|].
  destruct ((t + 1) mod k =? 0); simpl; eexists; split; reflexivity.
Qed.

Lemma div_succ (t k : Z) :
  0 < k ->
  (t + 1) / k = t / k + (if (t + 1) mod k =? 0 then 1 else 0).
Proof.
  intros Hk.
  pose proof (Z.div_mod t k ltac:(lia)) as Ht.
  pose proof (Z.mod_pos_bound t k Hk) as Bt.
  pose proof (Z.div_mod (t + 1) k ltac:(lia)) as Hs.
  pose proof (Z.mod_pos_bound (t + 1) k Hk) as Bs.
  destruct ((t + 1) mod k =? 0) eqn:E.
  - apply Z.eqb_eq in E. nia.
  - apply Z.eqb_neq in E. nia.
Qed.

Lemma div_mono_succ (t k : Z) : 0 < k -> t / k <= (t + 1) / k.
Proof. intros Hk. apply Z.div_le_mono; lia. Qed.

(** [n] MARKET events from a decider whose counter is at [t] put
    [(t + n) / k - t / k] ORDER events on the bus, all of them the
    configured order. *)
Lemma feed_market (payloads : list dict) :
  forall (d : self) (k : Z),
    buy_interval d = PyInt k -> 0 < k ->
    exists d' tr,
      feed (map market_event payloads) d = (Ok tt, d', tr) /\
      tick_count d' = tick_count d + Z.of_nat (List.length payloads) /\
      buy_interval d' = buy_interval d /\
      buy_amount d' = buy_amount d /\
      symbol d' = symbol d /\
      events_of tr =
        repeat (order_event d)
               (Z.to_nat ((tick_count d + Z.of_nat (List.length payloads)) / k
                          - tick_count d / k)).
Proof.
  induction payloads as [|p ps IH]; intros d k Hk Hpos.
  - exists d, []. simpl. rewrite Z.add_0_r, Z.sub_diag. repeat split; reflexivity.
  - destruct (process_market d p k Hk ltac:(lia)) as (tr1 & Hp & He1).
    destruct (IH (ticked d) k Hk Hpos) as (d' & tr2 & Hf & Ht & Hi & Ha & Hs & He2).
    exists d', (tr1 ++ tr2).
    cbn [map feed]. unfold M.bind at 1. rewrite Hp, Hf.
    repeat split; try assumption.
    + rewrite Ht. cbn [tick_count ticked List.length]. lia.
    + rewrite events_of_app, He1, He2, order_event_ticked.
      cbn [tick_count ticked List.length].
      replace (tick_count d + 1 + Z.of_nat (List.length ps))
        with (tick_count d + Z.of_nat (S (List.length ps))) by lia.
      set (N := tick_count d + Z.of_nat (S (List.length ps))).
      pose proof (div_succ (tick_count d) k Hpos) as Hd.
      assert (Hle : (tick_count d + 1) / k <= N / k)
        by (apply Z.div_le_mono; lia).
      destruct ((tick_count d + 1) mod k =? 0).
      * replace (Z.to_nat (N / k - tick_count d / k))
          with (S (Z.to_nat (N / k - (tick_count d + 1) / k))) by lia.
        reflexivity.
      * replace ((tick_count d + 1) / k) with (tick_count d / k) by lia.
        reflexivity.
Qed.

End Decider.

(** C1. For every sequence of N MARKET events whose payloads are arbitrary
    mappings (with or without a 'price' key), a decider constructed with
    buy_interval_ticks = k >= 1 (given, or the default 5) processes them all
    without an exception and puts exactly floor(N / k) events on the bus;
    each of them is the ORDER event whose data is
    {symbol: configured symbol, side: "buy", amount: configured buy_amount};
    and after fewer than k MARKET events nothing has been put on the bus. *)
Theorem C1_decider_emits_floor_N_over_k :
  forall (params : dict) (k : Z) (payloads : list dict),
    dict_get params "buy_interval_ticks" (PyInt 5) = PyInt k ->
    1 <= k ->
    let d := DcaDecider.__init__ params in
    let configured :=
      mkEvent ORDER
        (PyDict [("symbol", dict_get params "symbol" PyNone);
                 ("side", PyStr "buy");
                 ("amount", dict_get params "buy_amount" (PyFloat DcaDecider.float_0_01))]) in
    (exists d' tr,
        DcaDecider.feed (map DcaDecider.market_event payloads) d = (Ok tt, d', tr) /\
        DcaDecider.tick_count d' = Z.of_nat (List.length payloads) /\
        events_of tr = repeat configured (Z.to_nat (Z.of_nat (List.length payloads) / k)))
    /\
    (forall n : nat,
        Z.of_nat n < k ->
        events_of (snd (DcaDecider.feed (map DcaDecider.market_event (firstn n payloads)) d))
        = []).
Proof.
  intros params k payloads Hk Hpos d configured.
  assert (Hd : DcaDecider.buy_interval d = PyInt k) by exact Hk.
  split.
  - destruct (feed_market payloads d k Hd ltac:(lia)) as (d' & tr & Hf & Ht & _ & _ & _ & He).
    exists d', tr. repeat split; [exact Hf | rewrite Ht; reflexivity |].
    rewrite He. cbn [DcaDecider.tick_count d DcaDecider.__init__].
    rewrite Z.add_0_l, Z.div_0_l, Z.sub_0_r by lia. reflexivity.
  - intros n Hn.
    destruct (feed_market (firstn n payloads) d k Hd ltac:(lia))
      as (d' & tr & Hf & _ & _ & _ & _ & He).
    rewrite Hf. cbn [snd]. rewrite He.
    cbn [DcaDecider.tick_count d DcaDecider.__init__].
    rewrite Z.add_0_l, Z.div_0_l, Z.sub_0_r by lia.
    rewrite Z.div_small; [reflexivity|].
    pose proof (firstn_le_length n payloads). rewrite length_firstn. lia.
Qed.

(** The scenario of the specification: interval 3, amount 0.02, symbol
    BTC-USD, prices 100, 101, 99: one ORDER after the third event. *)
Lemma C1_decider_scenario :
  let params := [("symbol", PyStr "BTC-USD");
                 ("buy_interval_ticks", PyInt 3);
                 ("buy_amount", PyFloat Demo.float_0_02)] in
  let payloads := [[("price", PyInt 100)]; [("price", PyInt 101)]; [("price", PyInt 99)]] in
  exists d' tr,
    DcaDecider.feed (map DcaDecider.market_event payloads) (DcaDecider.__init__ params)
    = (Ok tt, d', tr) /\
    DcaDecider.tick_count d' = 3 /\
    events_of tr =
      [mkEvent ORDER
         (PyDict [("symbol", PyStr "BTC-USD");
                  ("side", PyStr "buy");
                  ("amount", PyFloat Demo.float_0_02)])].
Proof.
  exact (proj1 (C1_decider_emits_floor_N_over_k
                  [("symbol", PyStr "BTC-USD");
                   ("buy_interval_ticks", PyInt 3);
                   ("buy_amount", PyFloat Demo.float_0_02)]
                  3
                  [[("price", PyInt 100)]; [("price", PyInt 101)]; [("price", PyInt 99)]]
                  eq_refl ltac:(lia))).
Defined.

(** A payload that is not a mapping has no [get]: [process] raises
    AttributeError, after it has counted the tick. *)
Example process_payload_not_a_mapping :
  DcaDecider.process (mkEvent MARKET (PyInt 100)) (DcaDecider.__init__ [])
  = (Raise AttributeError, DcaDecider.ticked (DcaDecider.__init__ []), []).
Proof. reflexivity. Qed.

(** Whatever the event and the configuration, [process] advances the
    counter and puts on the bus nothing, or the configured order. *)
Lemma process_any (e : Event) (d : DcaDecider.self) :
  exists r tr,
    DcaDecider.process e d = (r, DcaDecider.ticked d, tr) /\
    (events_of tr = [] \/ events_of tr = [DcaDecider.order_event d]).
Proof.
  unfold DcaDecider.process, M.bind, M.read, M.write, M.lift, M.ret, log, put, M.emit.
  destruct (get (data e) "price" PyNone) as [price|x].
  - destruct (mod_is_zero (DcaDecider.tick_count (DcaDecider.ticked d))
                          (DcaDecider.buy_interval (DcaDecider.ticked d)))
      as [[|]|x]; do 2 eexists; (split; [reflexivity|]); cbn; auto.
  - do 2 eexists; (split; [reflexivity|]); cbn; auto.
Qed.

Lemma feed_emits_configured (events : list Event) :
  forall d : DcaDecider.self,
    Forall (fun e => e = DcaDecider.order_event d)
           (events_of (snd (DcaDecider.feed events d))).
Proof.
  induction events as [|e es IH]; intros d; [constructor|].
  cbn [DcaDecider.feed]. unfold M.bind at 1.
  destruct (process_any e d) as (r & tr & Hp & Hev). rewrite Hp.
  assert (H1 : Forall (fun e => e = DcaDecider.order_event d) (events_of tr))
    by (destruct Hev as [-> | ->]; repeat constructor).
  destruct r as [[]|x]; [|exact H1].
  specialize (IH (DcaDecider.ticked d)).
  destruct (DcaDecider.feed es (DcaDecider.ticked d)) as [[r2 d2] tr2].
  cbn [snd] in *. rewrite events_of_app. apply Forall_app. split; [exact H1|].
  exact IH.
Qed.

(** C6 (what the code does at the failing input). With buy_interval_ticks
    configured as 0 the constructor raises nothing: it stores the 0 and
    returns a decider.  The division by zero happens when the first MARKET
    event is processed: [process] raises ZeroDivisionError after it has
    advanced the counter, and puts nothing on the bus. *)
Theorem C6_zero_interval_divides_by_zero :
  forall (sym amount : pyval) (payload : dict),
    let params := [("symbol", sym); ("buy_interval_ticks", PyInt 0); ("buy_amount", amount)] in
    let d := DcaDecider.__init__ params in
    DcaDecider.buy_interval d = PyInt 0 /\
    exists tr,
      DcaDecider.process (DcaDecider.market_event payload) d
      = (Raise ZeroDivisionError, DcaDecider.ticked d, tr) /\
      events_of tr = [].
Proof.
  intros sym amount payload params d. split; [reflexivity|].
  eexists. split; reflexivity.
Qed.

(** ** The exchange client *)

Section Exchange.
Context {rt : Runtime}.
Import EopsLiveExchange.

Variables (base api : pyval) (key : string) (now : Z) (net : network).
Variables (sym side amount : pyval).

#[local] Abbreviation client := (mkSelf base api (PyStr key)).
#[local] Abbreviation request := (signed_request base api key now sym side amount).

(** The POST raises a [RequestException]: logged, [{}] returned. *)
Lemma order_transport_failure (kind : string) (resp : option (Z * string)) :
  net request = Raise (RequestException kind resp) ->
  create_market_order client now net sym side amount tt
  = (Ok (PyDict []), tt,
     [Post request; failure_log (RequestException kind resp) (response_text resp)]).
Proof.
  intros H.
  unfold create_market_order, M.bind, M.try_except, M.lift, post, M.emit, log, M.ret.
  cbn. fold request. rewrite H. reflexivity.
Qed.



(** Exactly one request is posted, whatever happens to it. *)
Lemma order_posts_once :
  posts_of (snd (create_market_order client now net sym side amount tt)) = [request].
Proof.
  unfold create_market_order, M.bind, M.try_except, M.lift, post, M.emit, log, M.ret.
  cbn. fold request.
  destruct (net request) as [r|e].
  - unfold raise_for_status. destruct (ok (status_code r)); cbn.
    + destruct (json r) as [v|e]; [reflexivity|]. destruct e; reflexivity.
    + reflexivity.
  - destruct e; reflexivity.
Qed.


End Exchange.




(** ** The executor *)

Section Executor.
Import LiveExecutor.

(** An ORDER event whose data is a mapping, with an exchange in the
    context: one call, with the event's three fields, and one log record
    for its outcome. *)
Lemma process_order (ex : exchange) (d : dict) :
  let sym := dict_get d "symbol" PyNone in
  let side := dict_get d "side" PyNone in
  let amount := dict_get d "amount" PyNone in
  let '(r, _, tr_ex) := ex sym side amount tt in
  process (Some ex) (mkEvent ORDER (PyDict d)) tt
  = (Ok tt, tt,
     [received_log (PyDict d); Order sym side amount] ++ tr_ex ++ [outcome_log r]).
Proof.
  cbv zeta.
  unfold process, M.try_except, M.bind, M.lift, M.emit, log, M.ret. cbn.
  destruct (ex _ _ _ tt) as [[r []] tr_ex].
  destruct r as [v|e]; cbn; rewrite ?app_nil_r; reflexivity.
Qed.

(** No exception leaves [process], whatever the event and the context. *)
Lemma process_never_raises (ctx : option exchange) (event : Event) :
  exists tr, process ctx event tt = (Ok tt, tt, tr).
Proof.
  unfold process, M.try_except, M.bind, M.lift, M.emit, log, M.ret. cbn.
  destruct ctx as [ex|]; cbn; [|eexists; reflexivity].
  destruct (get (data event) "symbol" PyNone) as [sym|e] eqn:Hs; cbn;
    [|eexists; reflexivity].
  destruct (get (data event) "side" PyNone) as [side|e] eqn:Hd; cbn;
    [|eexists; reflexivity].
  destruct (get (data event) "amount" PyNone) as [amount|e] eqn:Ha; cbn;
    [|eexists; reflexivity].
  destruct (ex sym side amount tt) as [[r []] tr_ex].
  destruct r as [v|e]; cbn; eexists; reflexivity.
Qed.

(** The consuming loop reaches the end of any list of events: its trace
    is the traces of the single steps, one after the other. *)
Lemma consume_all (ctx : option exchange) (events : list Event) :
  consume ctx events tt
  = (Ok tt, tt, flat_map (fun e => snd (process ctx e tt)) events).
Proof.
  induction events as [|e es IH]; [reflexivity|].
  cbn [consume flat_map]. unfold M.bind at 1.
  destruct (process_never_raises ctx e) as (tr & Hp). rewrite Hp, IH. reflexivity.
Qed.

End Executor.

(** An exchange that puts nothing on the bus leaves the executor putting
    nothing on it. *)
Lemma process_puts_nothing (ctx : option LiveExecutor.exchange) (event : Event) :
  (forall ex a b c, ctx = Some ex -> events_of (snd (ex a b c tt)) = []) ->
  events_of (snd (LiveExecutor.process ctx event tt)) = [].
Proof.
  intros Hex.
  unfold LiveExecutor.process, M.try_except, M.bind, M.lift, M.emit, log, M.ret. cbn.
  destruct ctx as [ex|]; cbn; [|reflexivity].
  destruct (get (data event) "symbol" PyNone) as [sym|e]; cbn; [|reflexivity].
  destruct (get (data event) "side" PyNone) as [side|e]; cbn; [|reflexivity].
  destruct (get (data event) "amount" PyNone) as [amount|e]; cbn; [|reflexivity].
  specialize (Hex ex sym side amount eq_refl).
  destruct (ex sym side amount tt) as [[r []] tr_ex]. cbn [snd] in Hex.
  destruct r as [v|e]; cbn; rewrite ?app_nil_r, ?events_of_app, Hex; reflexivity.
Qed.

(** C10. For every ORDER event the executor calls [create_market_order]
    once, with the event's symbol, side and amount; whatever that call does
    (return or raise), [process] returns normally after logging the outcome,
    with no second call; the executor puts no event on the bus itself; and
    the consuming loop goes through every event of any list, whichever calls
    failed. *)
Theorem C10_executor_fire_and_forget :
  forall (ctx : option LiveExecutor.exchange) (events : list Event),
    (forall event, exists tr, LiveExecutor.process ctx event tt = (Ok tt, tt, tr)) /\
    (forall (ex : LiveExecutor.exchange) (d : dict),
        let sym := dict_get d "symbol" PyNone in
        let side := dict_get d "side" PyNone in
        let amount := dict_get d "amount" PyNone in
        let '(r, _, tr_ex) := ex sym side amount tt in
        LiveExecutor.process (Some ex) (mkEvent ORDER (PyDict d)) tt
        = (Ok tt, tt,
           [LiveExecutor.received_log (PyDict d); Order sym side amount]
             ++ tr_ex ++ [LiveExecutor.outcome_log r])) /\
    (forall event,
        (forall ex a b c, ctx = Some ex -> events_of (snd (ex a b c tt)) = []) ->
        events_of (snd (LiveExecutor.process ctx event tt)) = []) /\
    LiveExecutor.consume ctx events tt
    = (Ok tt, tt, flat_map (fun e => snd (LiveExecutor.process ctx e tt)) events).
Proof.
  intros ctx events. repeat split.
  - intros event. apply process_never_raises.
  - intros ex d. apply process_order.
  - intros event Hex. apply process_puts_nothing. exact Hex.
  - apply consume_all.
Qed.

(** C10, an instance: with an exchange whose call always raises, two ORDER
    events in a row are both handled: two calls, two error records, and the
    loop ends normally. *)
Lemma C10_two_failing_orders :
  let order := fun amount =>
    mkEvent ORDER (PyDict [("symbol", PyStr "BTC-USD"); ("side", PyStr "buy");
                           ("amount", PyInt amount)]) in
  exists tr,
    LiveExecutor.consume (Some Demo.broken_exchange) [order 1; order 2] tt = (Ok tt, tt, tr) /\
    orders_of tr = [(PyStr "BTC-USD", PyStr "buy", PyInt 1);
                    (PyStr "BTC-USD", PyStr "buy", PyInt 2)] /\
    map lvl (logs_of tr) = [INFO; ERROR; INFO; ERROR].
Proof.
  eexists. split.
  - exact (proj2 (proj2 (proj2 (C10_executor_fire_and_forget
                                  (Some Demo.broken_exchange)
                                  [mkEvent ORDER (PyDict [("symbol", PyStr "BTC-USD");
                                                          ("side", PyStr "buy");
                                                          ("amount", PyInt 1)]);
                                   mkEvent ORDER (PyDict [("symbol", PyStr "BTC-USD");
                                                          ("side", PyStr "buy");
                                                          ("amount", PyInt 2)])])))).
  - split; reflexivity.
Defined.

(** ** The amount, from the configuration to the wire *)

Lemma order_posts_body {rt : Runtime} (s : EopsLiveExchange.self) (now : Z)
      (net : EopsLiveExchange.network) (sym side amount : pyval) :
  Forall (fun req => body req = json_dumps (EopsLiveExchange.order_body sym side amount))
         (posts_of (snd (EopsLiveExchange.create_market_order s now net sym side amount tt))).
Proof.
  unfold EopsLiveExchange.create_market_order, M.bind, M.try_except, M.lift,
    EopsLiveExchange.post, M.emit, log, M.ret, EopsLiveExchange._get_auth_headers.
  destruct (EopsLiveExchange.encode_utf8 (EopsLiveExchange.secret_key s)) as [k|e];
    cbn; [|constructor].
  match goal with |- context [net ?r] => destruct (net r) as [resp|e] end.
  - unfold EopsLiveExchange.raise_for_status.
    destruct (EopsLiveExchange.ok (EopsLiveExchange.status_code resp)); cbn.
    + destruct (EopsLiveExchange.json resp) as [v|e]; [repeat constructor|].
      destruct e; repeat constructor.
    + repeat constructor.
  - destruct e; repeat constructor.
Qed.

(** C8, as amended. The amount carried by every ORDER event is the
    configured buy_amount, unchanged (the float 0.01 when none is
    configured); the executor hands the event's amount to
    [create_market_order] unchanged; and the body of every request that
    [create_market_order] posts is the serialization of a mapping whose
    quantity is the string [str(amount)], never a number. *)
Theorem C8_amount_reaches_the_wire_as_a_string :
  forall (rt : Runtime),
    (forall (params : dict) (events : list Event),
        Forall (fun e =>
                  e = mkEvent ORDER
                        (PyDict [("symbol", dict_get params "symbol" PyNone);
                                 ("side", PyStr "buy");
                                 ("amount",
                                  dict_get params "buy_amount"
                                           (PyFloat DcaDecider.float_0_01))]))
               (events_of (snd (DcaDecider.feed events (DcaDecider.__init__ params))))) /\
    (forall (ex : LiveExecutor.exchange) (d : dict),
        exists tr,
          snd (LiveExecutor.process (Some ex) (mkEvent ORDER (PyDict d)) tt)
          = LiveExecutor.received_log (PyDict d)
            :: Order (dict_get d "symbol" PyNone) (dict_get d "side" PyNone)
                     (dict_get d "amount" PyNone)
            :: tr) /\
    (forall (s : EopsLiveExchange.self) (now : Z) (net : EopsLiveExchange.network)
            (sym side amount : pyval),
        Forall (fun req =>
                  body req
                  = json_dumps (PyDict [("instrument_id", sym);
                                        ("side", side);
                                        ("order_type", PyStr "market");
                                        ("quantity", PyStr (str amount))]))
               (posts_of (snd (EopsLiveExchange.create_market_order
                                 s now net sym side amount tt)))).
Proof.
  intros rt. repeat split.
  - intros params events. apply (feed_emits_configured events (DcaDecider.__init__ params)).
  - intros ex d. pose proof (process_order ex d) as H. cbv zeta in H.
    destruct (ex _ _ _ tt) as [[r u] tr_ex]. rewrite H. eexists. reflexivity.
  - intros s now net sym side amount. apply order_posts_body.
Qed.

(** C8 as stated fails: with no buy_amount configured, the ORDER event put
    on the bus after five ticks carries the binary float 0.01. *)
Lemma C8_default_amount_is_a_binary_float :
  let d := DcaDecider.__init__ [("symbol", PyStr "BTC-USD")] in
  let emitted :=
    events_of (snd (DcaDecider.feed (map DcaDecider.market_event (repeat [] 5%nat)) d)) in
  map (fun e => get (data e) "amount" PyNone) emitted
  = [Ok (PyFloat (S754_finite false 5764607523034235 (-59)))] /\
  map (fun e => match get (data e) "amount" PyNone with
                | Ok v => is_float v
                | Raise _ => false
                end) emitted = [true].
Proof. split; vm_compute; reflexivity. Qed.

(** ** The updater: decoding inbound messages *)

Section Messages.
Context {rt : Runtime}.
Import LiveUpdater.


(** An entry that is not a mapping ends the batch: the orders after it
    are not looked at. *)
Example dispatch_orders_cut_short :
  dispatch_orders [PyInt 5; PyDict [("status", PyStr "filled")]] tt
  = (Raise AttributeError, tt, []).
Proof. reflexivity. Qed.

(** Both [except] clauses return normally. *)
Lemma handler_returns (message : string) (e : exn) :
  exists h r,
    on_message_error message e = Some h /\ h tt = (Ok tt, tt, [Log r]).
Proof. destruct e; cbn; do 2 eexists; split; reflexivity. Qed.

Lemma process_ws_message_returns (message : string) :
  exists tr, _process_ws_message message tt = (Ok tt, tt, tr).
Proof.
  unfold _process_ws_message, M.try_except.
  match goal with |- context [match ?b tt with _ => _ end] => destruct (b tt) as [[r []] tr] end.
  destruct r as [[]|e]; [eexists; reflexivity|].
  destruct (handler_returns message e) as (h & r & -> & ->).
  eexists. reflexivity.
Qed.

End Messages.



(** C9. For every inbound message, [_process_ws_message] returns normally.
    Text that is not JSON gives one warning record and no event.  A Ticker
    message with no 'data' field, and a message that decodes to something
    other than a mapping, give one error record and no event.  A mapping of
    any other event type is ignored without a record.  In each case the
    receive loop, when the strategy is still active, goes on to wait for the
    next message on the same connection: it neither closes nor sleeps. *)
Theorem C9_message_errors_are_contained :
  forall (rt : Runtime) (message : string),
    (exists tr, LiveUpdater._process_ws_message message tt = (Ok tt, tt, tr)) /\
    (json_loads message = Raise JSONDecodeError ->
     LiveUpdater._process_ws_message message tt
     = (Ok tt, tt,
        [Log (mkLog WARNING "Received non-JSON WebSocket message: {}" [T message])])) /\
    (forall d,
        json_loads message = Ok (PyDict d) ->
        dict_get d "event_type" PyNone = PyStr "Ticker" ->
        lookup d "data" = None ->
        LiveUpdater._process_ws_message message tt
        = (Ok tt, tt,
           [Log (mkLog ERROR "Error processing WebSocket message: {}" [X KeyError])])) /\
    (forall v,
        json_loads message = Ok v ->
        (forall d, v <> PyDict d) ->
        LiveUpdater._process_ws_message message tt
        = (Ok tt, tt,
           [Log (mkLog ERROR "Error processing WebSocket message: {}" [X AttributeError])])) /\
    (forall d,
        json_loads message = Ok (PyDict d) ->
        eq_str (dict_get d "event_type" PyNone) "Ticker" = false ->
        eq_str (dict_get d "event_type" PyNone) "OrderUpdate" = false ->
        LiveUpdater._process_ws_message message tt = (Ok tt, tt, [])) /\
    (forall (l : LiveUpdater.locals) (w : LiveUpdater.env) (t : nat),
        LiveUpdater.active w t = true ->
        LiveUpdater.step l w t (LiveUpdater.GotMessage message)
        = (LiveUpdater.Receiving, snd (LiveUpdater._process_ws_message message tt))).
Proof.
  intros rt message. split; [apply process_ws_message_returns|].
  split; [|split; [|split; [|split]]].
  - intros H. unfold LiveUpdater._process_ws_message, M.try_except, M.bind, M.lift.
    rewrite H. reflexivity.
  - intros d Hload Htype Hdata.
    unfold LiveUpdater._process_ws_message, M.try_except, M.bind, M.lift.
    rewrite Hload. cbn [get]. rewrite Htype. cbn [eq_str String.eqb Ascii.eqb Bool.eqb].
    unfold subscript. rewrite Hdata. reflexivity.
  - intros v Hload Hv.
    unfold LiveUpdater._process_ws_message, M.try_except, M.bind, M.lift.
    rewrite Hload. destruct v; try reflexivity. exfalso. exact (Hv d eq_refl).
  - intros d Hload H1 H2.
    unfold LiveUpdater._process_ws_message, M.try_except, M.bind, M.lift.
    rewrite Hload. cbn [get]. rewrite H1, H2. reflexivity.
  - intros l w t Hact. cbn [LiveUpdater.step]. rewrite Hact.
    destruct (process_ws_message_returns message) as (tr & ->). reflexivity.
Qed.

(** C9, two instances: text that is not JSON is dropped with a warning,
    and a Ticker message without 'data' is dropped with an error record. *)
Lemma C9_dropped_messages :
  @LiveUpdater._process_ws_message Demo.runtime "not json" tt
  = (Ok tt, tt,
     [Log (mkLog WARNING "Received non-JSON WebSocket message: {}" [T "not json"])]) /\
  @LiveUpdater._process_ws_message Demo.runtime Demo.bare_ticker_message tt
  = (Ok tt, tt,
     [Log (mkLog ERROR "Error processing WebSocket message: {}" [X KeyError])]).
Proof.
  split.
  - exact (proj1 (proj2 (C9_message_errors_are_contained Demo.runtime "not json")) eq_refl).
  - exact (proj1 (proj2 (proj2 (C9_message_errors_are_contained
                                  Demo.runtime Demo.bare_ticker_message)))
             [("event_type", PyStr "Ticker")] eq_refl eq_refl eq_refl).
Defined.


(** ** The updater: the connection loop *)

Section Loop.
Context {rt : Runtime}.
Import LiveUpdater.

Variables (l : locals) (w : env).


Lemma process_ws_message_trace (m : string) :
  connects_of (snd (_process_ws_message m tt)) = 0%nat /\
  sleeps_of (snd (_process_ws_message m tt)) = [].
Proof.
  assert (Hd : forall orders : list pyval,
             connects_of (snd (dispatch_orders orders tt)) = 0%nat /\
             sleeps_of (snd (dispatch_orders orders tt)) = []).
  { induction orders as [|o os [IH1 IH2]]; [split; reflexivity|].
    cbn [dispatch_orders]. unfold M.bind, M.lift, M.ret, log, put, M.emit in *.
    destruct (get o "status" PyNone) as [st|e]; [|split; reflexivity].
    destruct (in_strs st ["filled"; "partially_filled"]);
      destruct (dispatch_orders os tt) as [[r u] tr]; cbn in *; auto. }
  unfold _process_ws_message, M.try_except, M.bind, M.lift, M.ret, log, put, M.emit.
  destruct (json_loads m) as [v|e]; [|destruct e; split; reflexivity].
  destruct (get v "event_type" PyNone) as [et|e]; [|destruct e; split; reflexivity].
  destruct (eq_str et "Ticker").
  - destruct (subscript v "data") as [x|e]; [split; reflexivity|].
    destruct e; split; reflexivity.
  - destruct (eq_str et "OrderUpdate"); [|split; reflexivity].
    destruct (get v "data" (PyList [])) as [b|e]; [|destruct e; split; reflexivity].
    destruct (iter b) as [os|e]; [|destruct e; split; reflexivity].
    destruct (Hd os) as [H1 H2].
    destruct (dispatch_orders os tt) as [[r u] tr]. cbn [snd] in *.
    destruct r as [[]|e]; [split; assumption|].
    destruct e; cbn; rewrite ?connects_of_app, ?sleeps_of_app, ?H1, ?H2; split; reflexivity.
Qed.





Section Deactivated.
Variable t0 : nat.
Hypothesis cleared : forall t, (t0 <= t)%nat -> active w t = false.












End Deactivated.

End Loop.



(** The reconnection scenario of the specification: three refused
    attempts, each followed by a sleep of 5 seconds, a fourth attempt that
    succeeds, and the batch message decoded on the new connection. *)
Example reconnects_then_resumes :
  let '(p, tr) := @LiveUpdater._ws_loop Demo.runtime Demo.updater_params Demo.recovering 14 in
  p = Ok LiveUpdater.Receiving /\
  connects_of tr = 4%nat /\ sleeps_of tr = [5; 5; 5] /\
  events_of tr = [mkEvent FILL (PyDict [("id", PyInt 1); ("status", PyStr "filled")])].
Proof. vm_compute. repeat split; reflexivity. Qed.

(** Deactivation while a message is awaited: the message that arrives is
    not decoded, the connection is closed and the loop returns. *)
Example stops_when_deactivated :
  let '(p, tr) := @LiveUpdater._ws_loop Demo.runtime Demo.updater_params Demo.stopping 8 in
  p = Ok LiveUpdater.Returned /\
  connects_of tr = 1%nat /\ sleeps_of tr = [] /\ events_of tr = [].
Proof. vm_compute. repeat split; reflexivity. Qed.

(** ** Configuration *)

Lemma missing_is_falsy (params : dict) (key : string) :
  lookup params key = None -> truthy (dict_get params key PyNone) = false.
Proof. intros H. unfold dict_get. rewrite H. reflexivity. Qed.

Lemma exchange_init_rejects (params : dict) :
  all [dict_get params "base_url" PyNone;
       dict_get params "api_key" PyNone;
       dict_get params "secret_key" PyNone] = false ->
  EopsLiveExchange.__init__ params = Raise ValueError.
Proof.
  intros H. unfold EopsLiveExchange.__init__.
  cbn [EopsLiveExchange.base_url EopsLiveExchange.api_key EopsLiveExchange.secret_key].
  rewrite H. reflexivity.
Qed.

Lemma updater_prologue_returns (params : dict) :
  all [dict_get params "ws_url" PyNone;
       dict_get params "jwt" PyNone;
       dict_get params "symbol" PyNone] = false ->
  LiveUpdater.prologue params tt
  = (Ok None, tt,
     [Log (mkLog ERROR
             "Updater requires 'ws_url', 'jwt', and 'symbol' in STRATEGY_PARAMS." [])]).
Proof.
  intros H. unfold LiveUpdater.prologue.
  cbn [LiveUpdater.ws_url LiveUpdater.jwt LiveUpdater.symbol].
  rewrite H. reflexivity.
Qed.

(** C7, as amended. A missing base_url, api_key or secret_key is fatal at
    construction: the exchange client's constructor raises ValueError.  A
    missing ws_url, jwt or symbol raises nothing: the updater's loop, when
    it is started, logs one error record and returns without any
    connection attempt. *)
Theorem C7_missing_parameters :
  forall (rt : Runtime) (params : dict),
    (forall key,
        In key ["base_url"; "api_key"; "secret_key"] ->
        lookup params key = None ->
        EopsLiveExchange.__init__ params = Raise ValueError) /\
    (forall key,
        In key ["ws_url"; "jwt"; "symbol"] ->
        lookup params key = None ->
        forall (w : LiveUpdater.env) (n : nat),
          LiveUpdater._ws_loop params w n
          = (Ok LiveUpdater.Returned,
             [Log (mkLog ERROR
                     "Updater requires 'ws_url', 'jwt', and 'symbol' in STRATEGY_PARAMS."
                     [])])).
Proof.
  intros rt params. split.
  - intros key Hin Hmiss. apply exchange_init_rejects.
    pose proof (missing_is_falsy params key Hmiss) as Hf.
    cbn [In] in Hin. cbn [all forallb].
    destruct Hin as [<-|[<-|[<-|[]]]]; rewrite Hf;
      rewrite ?andb_false_r; reflexivity.
  - intros key Hin Hmiss w n. unfold LiveUpdater._ws_loop.
    rewrite updater_prologue_returns; [reflexivity|].
    pose proof (missing_is_falsy params key Hmiss) as Hf.
    cbn [In] in Hin. cbn [all forallb].
    destruct Hin as [<-|[<-|[<-|[]]]]; rewrite Hf;
      rewrite ?andb_false_r; reflexivity.
Qed.

(** C7, an instance: parameters without a secret_key are refused by the
    exchange client's constructor. *)
Lemma C7_exchange_without_secret_key :
  EopsLiveExchange.__init__
    [("base_url", PyStr "https://exchange.example"); ("api_key", PyStr "key-1")]
  = Raise ValueError.
Proof.
  exact (proj1 (C7_missing_parameters Demo.runtime
                  [("base_url", PyStr "https://exchange.example");
                   ("api_key", PyStr "key-1")])
           "secret_key" (or_intror (or_intror (or_introl eq_refl))) eq_refl).
Defined.

(** C7 as stated fails for the updater: with no parameter at all, its
    loop raises nothing; it logs one error record and returns. *)
Lemma C7_updater_without_parameters_returns :
  LiveUpdater.prologue [] tt
  = (Ok None, tt,
     [Log (mkLog ERROR
             "Updater requires 'ws_url', 'jwt', and 'symbol' in STRATEGY_PARAMS." [])]) /\
  @LiveUpdater._ws_loop Demo.runtime [] Demo.refusing 10
  = (Ok LiveUpdater.Returned,
     [Log (mkLog ERROR
             "Updater requires 'ws_url', 'jwt', and 'symbol' in STRATEGY_PARAMS." [])]).
Proof. split; reflexivity. Qed.

(** ** The signature *)











(** HMAC-SHA256 on the second test case of RFC 4231. *)
Example hmac_rfc4231_case_2 :
  Sha256.hmac_hexdigest "Jefe" "what do ya want for nothing?"
  = "5bdcc146bf60754e6a042426089575c75a003f089d2739839dec58b964ec3843".
Proof. vm_compute. reflexivity. Qed.

(** SHA-256 of "abc" (FIPS 180-4). *)
Example sha256_abc :
  Sha256.hex (Sha256.sha256 (Sha256.encode "abc"))
  = "ba7816bf8f01cfea414140de5dae2223b00361a396177a9cb410ff61f20015ad".
Proof. vm_compute. reflexivity. Qed.








(* ================================================================== *)
(** * Further properties of the code *)

(** ** The decider beyond a positive interval *)

Lemma mod_abs_zero (t k : Z) :
  k <> 0 -> (t mod k =? 0) = (t mod Z.abs k =? 0).
Proof.
  intros Hk.
  destruct (t mod k =? 0) eqn:E1; destruct (t mod Z.abs k =? 0) eqn:E2; try reflexivity.
  - apply Z.eqb_eq in E1. apply Z.eqb_neq in E2. exfalso. apply E2.
    apply Z.mod_divide; [lia|]. apply (proj2 (Z.divide_abs_l k t)).
    apply Z.mod_divide in E1; assumption.
  - apply Z.eqb_neq in E1. apply Z.eqb_eq in E2. exfalso. apply E1.
    apply Z.mod_divide; [assumption|].
    apply Z.mod_divide in E2; [|lia]. exact (proj1 (Z.divide_abs_l k t) E2).
Qed.

(** With an integer interval other than zero, positive or negative, [n]
    MARKET events from counter [t] give as many orders as there are
    multiples of the interval's absolute value among [t+1 .. t+n]. *)
Lemma feed_market_nonzero (payloads : list dict) :
  forall (d : DcaDecider.self) (k : Z),
    DcaDecider.buy_interval d = PyInt k -> k <> 0 ->
    exists d' tr,
      DcaDecider.feed (map DcaDecider.market_event payloads) d = (Ok tt, d', tr) /\
      d' = DcaDecider.mkSelf (DcaDecider.tick_count d + Z.of_nat (List.length payloads))
                             (DcaDecider.buy_interval d) (DcaDecider.buy_amount d)
                             (DcaDecider.symbol d) /\
      events_of tr =
        repeat (DcaDecider.order_event d)
               (Z.to_nat ((DcaDecider.tick_count d + Z.of_nat (List.length payloads))
                            / Z.abs k
                          - DcaDecider.tick_count d / Z.abs k)).
Proof.
  induction payloads as [|p ps IH]; intros d k Hk Hnz.
  - exists d, []. cbn [map DcaDecider.feed List.length Z.of_nat].
    rewrite Z.add_0_r, Z.sub_diag. destruct d. repeat split; reflexivity.
  - destruct (process_market d p k Hk Hnz) as (tr1 & Hp & He1).
    destruct (IH (DcaDecider.ticked d) k Hk Hnz) as (d' & tr2 & Hf & Hd & He2).
    exists d', (tr1 ++ tr2).
    cbn [map DcaDecider.feed]. unfold M.bind at 1. rewrite Hp, Hf.
    split; [reflexivity|]. split.
    + rewrite Hd. cbn [DcaDecider.ticked DcaDecider.tick_count DcaDecider.buy_interval
                       DcaDecider.buy_amount DcaDecider.symbol List.length].
      f_equal. lia.
    + rewrite events_of_app, He1, He2, order_event_ticked, (mod_abs_zero _ k Hnz).
      cbn [DcaDecider.tick_count DcaDecider.ticked List.length].
      assert (Hpos : 0 < Z.abs k) by lia.
      replace (DcaDecider.tick_count d + 1 + Z.of_nat (List.length ps))
        with (DcaDecider.tick_count d + Z.of_nat (S (List.length ps))) by lia.
      set (N := DcaDecider.tick_count d + Z.of_nat (S (List.length ps))).
      pose proof (div_succ (DcaDecider.tick_count d) (Z.abs k) Hpos) as Hdiv.
      assert (Hle : (DcaDecider.tick_count d + 1) / Z.abs k <= N / Z.abs k)
        by (apply Z.div_le_mono; lia).
      destruct ((DcaDecider.tick_count d + 1) mod Z.abs k =? 0).
      * replace (Z.to_nat (N / Z.abs k - DcaDecider.tick_count d / Z.abs k))
          with (S (Z.to_nat (N / Z.abs k - (DcaDecider.tick_count d + 1) / Z.abs k)))
          by lia.
        reflexivity.
      * replace ((DcaDecider.tick_count d + 1) / Z.abs k)
          with (DcaDecider.tick_count d / Z.abs k) by lia.
        reflexivity.
Qed.

(** X1. The decider accepts any integer interval other than zero: a
    negative interval behaves as its absolute value.  N MARKET events with
    mapping payloads are all processed and give floor(N / |k|) ORDER
    events, each the configured one. *)
Theorem decider_negative_interval_counts_as_positive :
  forall (params : dict) (k : Z) (payloads : list dict),
    dict_get params "buy_interval_ticks" (PyInt 5) = PyInt k ->
    k <> 0 ->
    exists d' tr,
      DcaDecider.feed (map DcaDecider.market_event payloads) (DcaDecider.__init__ params)
      = (Ok tt, d', tr) /\
      DcaDecider.tick_count d' = Z.of_nat (List.length payloads) /\
      events_of tr
      = repeat (DcaDecider.order_event (DcaDecider.__init__ params))
               (Z.to_nat (Z.of_nat (List.length payloads) / Z.abs k)).
Proof.
  intros params k payloads Hk Hnz.
  destruct (feed_market_nonzero payloads (DcaDecider.__init__ params) k Hk Hnz)
    as (d' & tr & Hf & Hd & He).
  exists d', tr. split; [exact Hf|]. split.
  - rewrite Hd. cbn [DcaDecider.tick_count DcaDecider.__init__]. lia.
  - rewrite He. cbn [DcaDecider.tick_count DcaDecider.__init__].
    rewrite Z.add_0_l, Z.div_0_l, Z.sub_0_r by lia. reflexivity.
Qed.

(** An interval of -3: six events give two orders. *)
Lemma decider_interval_minus_three :
  exists d' tr,
    DcaDecider.feed (map DcaDecider.market_event (repeat [] 6%nat))
                    (DcaDecider.__init__ [("symbol", PyStr "BTC-USD");
                                          ("buy_interval_ticks", PyInt (-3))])
    = (Ok tt, d', tr) /\
    DcaDecider.tick_count d' = 6 /\
    List.length (events_of tr) = 2%nat.
Proof.
  destruct (decider_negative_interval_counts_as_positive
              [("symbol", PyStr "BTC-USD"); ("buy_interval_ticks", PyInt (-3))]
              (-3) (repeat [] 6%nat) eq_refl ltac:(discriminate))
    as (d' & tr & Hf & Ht & He).
  exists d', tr. split; [exact Hf|]. split; [exact Ht|].
  rewrite He. reflexivity.
Defined.

(** The payload of a MARKET event changes the log record only. *)
Lemma process_payload_irrelevant (d : DcaDecider.self) (p p' : dict) :
  fst (DcaDecider.process (DcaDecider.market_event p) d)
  = fst (DcaDecider.process (DcaDecider.market_event p') d) /\
  events_of (snd (DcaDecider.process (DcaDecider.market_event p) d))
  = events_of (snd (DcaDecider.process (DcaDecider.market_event p') d)).
Proof.
  unfold DcaDecider.process, M.bind, M.read, M.write, M.lift, M.ret, log, put, M.emit.
  cbn [DcaDecider.market_event data get].
  destruct (mod_is_zero (DcaDecider.tick_count (DcaDecider.ticked d))
                        (DcaDecider.buy_interval (DcaDecider.ticked d)))
    as [[|]|x]; split; reflexivity.
Qed.

Lemma feed_cons (e : Event) (es : list Event) (d : DcaDecider.self) :
  DcaDecider.feed (e :: es) d
  = match DcaDecider.process e d with
    | (Ok _, d1, tr1) =>
        match DcaDecider.feed es d1 with
        | (r, d2, tr2) => (r, d2, tr1 ++ tr2)
        end
    | (Raise x, d1, tr1) => (Raise x, d1, tr1)
    end.
Proof. reflexivity. Qed.

Lemma feed_payloads_irrelevant (ps : list dict) :
  forall (ps' : list dict) (d : DcaDecider.self),
    List.length ps = List.length ps' ->
    fst (DcaDecider.feed (map DcaDecider.market_event ps) d)
    = fst (DcaDecider.feed (map DcaDecider.market_event ps') d) /\
    events_of (snd (DcaDecider.feed (map DcaDecider.market_event ps) d))
    = events_of (snd (DcaDecider.feed (map DcaDecider.market_event ps') d)).
Proof.
  induction ps as [|p ps IH]; intros [|p' ps'] d Hlen; try discriminate.
  - split; reflexivity.
  - cbn [map]. rewrite !feed_cons.
    destruct (process_payload_irrelevant d p p') as [H1 H2].
    destruct (DcaDecider.process (DcaDecider.market_event p) d) as [[r d1] tr1].
    destruct (DcaDecider.process (DcaDecider.market_event p') d) as [[r' d1'] tr1'].
    cbn [fst snd] in H1, H2. injection H1 as <- <-.
    destruct r as [[]|x]; [|split; [reflexivity|exact H2]].
    injection Hlen as Hlen.
    destruct (IH ps' d1 Hlen) as [H3 H4].
    destruct (DcaDecider.feed (map DcaDecider.market_event ps) d1) as [[r2 d2] tr2].
    destruct (DcaDecider.feed (map DcaDecider.market_event ps') d1) as [[r2' d2'] tr2'].
    cbn [fst snd] in *. injection H3 as <- <-.
    split; [reflexivity|]. rewrite !events_of_app, H2, H4. reflexivity.
Qed.

(** X2. The decider never looks at prices: whatever its configuration,
    two runs over the same number of MARKET events with mapping payloads
    end with the same result, leave the same state and put the same events
    on the bus, whatever the payloads hold. *)
Theorem decider_is_price_insensitive :
  forall (d : DcaDecider.self) (payloads payloads' : list dict),
    List.length payloads = List.length payloads' ->
    fst (DcaDecider.feed (map DcaDecider.market_event payloads) d)
    = fst (DcaDecider.feed (map DcaDecider.market_event payloads') d) /\
    events_of (snd (DcaDecider.feed (map DcaDecider.market_event payloads) d))
    = events_of (snd (DcaDecider.feed (map DcaDecider.market_event payloads') d)).
Proof.
  intros d payloads payloads' Hlen. apply feed_payloads_irrelevant. exact Hlen.
Qed.

(** Rising and falling prices give the same orders. *)
Lemma decider_rising_and_falling_prices :
  let d := DcaDecider.__init__ [("symbol", PyStr "BTC-USD"); ("buy_interval_ticks", PyInt 2)] in
  let rising := [[("price", PyInt 100)]; [("price", PyInt 200)]] in
  let falling := [[("price", PyInt 100)]; [("price", PyInt 1)]] in
  fst (DcaDecider.feed (map DcaDecider.market_event rising) d)
  = fst (DcaDecider.feed (map DcaDecider.market_event falling) d) /\
  events_of (snd (DcaDecider.feed (map DcaDecider.market_event rising) d))
  = events_of (snd (DcaDecider.feed (map DcaDecider.market_event falling) d)).
Proof.
  exact (decider_is_price_insensitive
           (DcaDecider.__init__ [("symbol", PyStr "BTC-USD"); ("buy_interval_ticks", PyInt 2)])
           [[("price", PyInt 100)]; [("price", PyInt 200)]]
           [[("price", PyInt 100)]; [("price", PyInt 1)]]
           eq_refl).
Defined.

Lemma feed_invariants (events : list Event) :
  forall d : DcaDecider.self,
    let out := DcaDecider.feed events d in
    let d' := snd (fst out) in
    DcaDecider.buy_interval d' = DcaDecider.buy_interval d /\
    DcaDecider.buy_amount d' = DcaDecider.buy_amount d /\
    DcaDecider.symbol d' = DcaDecider.symbol d /\
    DcaDecider.tick_count d <= DcaDecider.tick_count d'
      <= DcaDecider.tick_count d + Z.of_nat (List.length events) /\
    (fst (fst out) = Ok tt ->
     DcaDecider.tick_count d' = DcaDecider.tick_count d + Z.of_nat (List.length events)) /\
    (forall x, fst (fst out) = Raise x -> DcaDecider.tick_count d < DcaDecider.tick_count d') /\
    Z.of_nat (List.length (events_of (snd out)))
      <= DcaDecider.tick_count d' - DcaDecider.tick_count d.
Proof.
  induction events as [|e es IH]; intros d.
  - cbn. repeat split; try lia. intros x Hx. discriminate.
  - cbv zeta. rewrite feed_cons.
    destruct (process_any e d) as (r & tr & Hp & Hev). rewrite Hp.
    assert (Hlen : (List.length (events_of tr) <= 1)%nat)
      by (destruct Hev as [-> | ->]; cbn; lia).
    destruct r as [[]|x].
    + specialize (IH (DcaDecider.ticked d)). cbv zeta in IH.
      destruct (DcaDecider.feed es (DcaDecider.ticked d)) as [[r2 d2] tr2].
      cbn [fst snd DcaDecider.ticked DcaDecider.tick_count DcaDecider.buy_interval
           DcaDecider.buy_amount DcaDecider.symbol List.length] in *.
      destruct IH as (H1 & H2 & H3 & H4 & H5 & H6 & H7).
      rewrite events_of_app, length_app.
      refine (conj H1 (conj H2 (conj H3 (conj _ (conj _ (conj _ _)))))).
      * lia.
      * intros Hr. specialize (H5 Hr). lia.
      * intros y Hy. specialize (H6 y Hy). lia.
      * lia.
    + cbn [fst snd DcaDecider.ticked DcaDecider.tick_count DcaDecider.buy_interval
           DcaDecider.buy_amount DcaDecider.symbol List.length].
      refine (conj eq_refl (conj eq_refl (conj eq_refl (conj _ (conj _ (conj _ _)))))).
      * lia.
      * intros Hr. discriminate.
      * intros y _. lia.
      * lia.
Qed.

(** X3. Whatever the events and the configuration, a run of the decider
    never changes its interval, amount or symbol; its counter never goes
    down and grows by at most one per event: by exactly the number of
    events when the run ends normally, and by at least one when an event
    raised (the event that raised is counted); and it puts at most one
    event on the bus per tick counted. *)
Theorem decider_counts_every_event :
  forall (events : list Event) (d : DcaDecider.self),
    let out := DcaDecider.feed events d in
    let d' := snd (fst out) in
    DcaDecider.buy_interval d' = DcaDecider.buy_interval d /\
    DcaDecider.buy_amount d' = DcaDecider.buy_amount d /\
    DcaDecider.symbol d' = DcaDecider.symbol d /\
    DcaDecider.tick_count d <= DcaDecider.tick_count d'
      <= DcaDecider.tick_count d + Z.of_nat (List.length events) /\
    (fst (fst out) = Ok tt ->
     DcaDecider.tick_count d' = DcaDecider.tick_count d + Z.of_nat (List.length events)) /\
    (forall x, fst (fst out) = Raise x -> DcaDecider.tick_count d < DcaDecider.tick_count d') /\
    Z.of_nat (List.length (events_of (snd out)))
      <= DcaDecider.tick_count d' - DcaDecider.tick_count d.
Proof. intros events d. apply feed_invariants. Qed.

Lemma process_without_number (e : Event) (d : DcaDecider.self) :
  Pipeline.not_a_number (DcaDecider.buy_interval d) = true ->
  exists x tr,
    DcaDecider.process e d = (Raise x, DcaDecider.ticked d, tr) /\
    events_of tr = [] /\
    (Pipeline.is_mapping (data e) = true -> x = TypeError).
Proof.
  intros Hn.
  unfold DcaDecider.process, M.bind, M.read, M.write, M.lift, M.ret, log, put, M.emit.
  cbn [DcaDecider.ticked DcaDecider.buy_interval DcaDecider.tick_count].
  destruct (data e) as [| | | | |?|pl]; cbn [get];
    try (do 2 eexists; split; [reflexivity|]; split; [reflexivity|discriminate]).
  destruct (DcaDecider.buy_interval d); try discriminate;
    cbn; do 2 eexists; split; try reflexivity; split; reflexivity.
Qed.

(** X4. An interval that is no number (None, a string, a list, a mapping)
    is accepted by the constructor, and then the decider never emits an
    order: every MARKET event with a mapping payload raises TypeError after
    the tick is counted, and no run over any events puts anything on the
    bus. *)
Theorem decider_without_a_numeric_interval_never_orders :
  forall (params : dict),
    Pipeline.not_a_number (dict_get params "buy_interval_ticks" (PyInt 5)) = true ->
    (forall payload : dict,
        exists tr,
          DcaDecider.process (DcaDecider.market_event payload) (DcaDecider.__init__ params)
          = (Raise TypeError, DcaDecider.ticked (DcaDecider.__init__ params), tr) /\
          events_of tr = []) /\
    (forall events : list Event,
        events_of (snd (DcaDecider.feed events (DcaDecider.__init__ params))) = []).
Proof.
  intros params Hn. split.
  - intros payload.
    destruct (process_without_number (DcaDecider.market_event payload)
                (DcaDecider.__init__ params) Hn) as (x & tr & Hp & He & Hx).
    rewrite (Hx eq_refl) in Hp. exists tr. split; assumption.
  - intros events.
    assert (H : forall d, Pipeline.not_a_number (DcaDecider.buy_interval d) = true ->
                          events_of (snd (DcaDecider.feed events d)) = []).
    { destruct events as [|e es]; intros d Hd; [reflexivity|].
      rewrite feed_cons.
      destruct (process_without_number e d Hd) as (x & tr & Hp & He & _).
      rewrite Hp. exact He. }
    apply H. exact Hn.
Qed.

(** An interval configured as the string "5". *)
Lemma decider_with_a_string_interval :
  (forall payload : dict,
      exists tr,
        DcaDecider.process (DcaDecider.market_event payload)
          (DcaDecider.__init__ [("buy_interval_ticks", PyStr "5")])
        = (Raise TypeError,
           DcaDecider.ticked (DcaDecider.__init__ [("buy_interval_ticks", PyStr "5")]), tr) /\
        events_of tr = []) /\
  (forall events : list Event,
      events_of (snd (DcaDecider.feed events
                        (DcaDecider.__init__ [("buy_interval_ticks", PyStr "5")]))) = []).
Proof.
  exact (decider_without_a_numeric_interval_never_orders
           [("buy_interval_ticks", PyStr "5")] eq_refl).
Defined.

(** ** The updater: tickers and broken batches *)






Section BrokenBatch.
Context {rt : Runtime}.

Lemma dispatch_orders_stops_at (orders : list dict) (v : pyval) (rest : list pyval) :
  Pipeline.is_mapping v = false ->
  exists tr,
    LiveUpdater.dispatch_orders (map PyDict orders ++ v :: rest) tt
    = (Raise AttributeError, tt, tr) /\
    events_of tr
    = map (fun o => mkEvent FILL (PyDict o)) (filter LiveUpdater.is_fill orders).
Proof.
  intros Hv. induction orders as [|o os (tr & Hd & He)].
  - exists []. cbn [map app LiveUpdater.dispatch_orders filter].
    unfold M.bind, M.lift. destruct v; try (split; reflexivity). discriminate.
  - cbn [map app LiveUpdater.dispatch_orders filter].
    unfold M.bind, M.lift, M.ret, log, put, M.emit in *. cbn [get].
    unfold LiveUpdater.is_fill at 1.
    destruct (in_strs (dict_get o "status" PyNone) ["filled"; "partially_filled"]).
    + rewrite Hd. eexists. split; [reflexivity|]. cbn. rewrite He. reflexivity.
    + rewrite Hd. eexists. split; [reflexivity|]. cbn. rewrite He. reflexivity.
Qed.

End BrokenBatch.

(** X7. An entry of an OrderUpdate batch that is not a mapping cuts the
    batch short: the fills of the orders before it are published, the
    entries after it are never looked at, one error record is logged and the
    call returns normally. *)
Theorem broken_batch_is_cut_short :
  forall (rt : Runtime) (message : string) (d : dict)
         (orders : list dict) (v : pyval) (rest : list pyval),
    json_loads message = Ok (PyDict d) ->
    dict_get d "event_type" PyNone = PyStr "OrderUpdate" ->
    dict_get d "data" (PyList []) = PyList (map PyDict orders ++ v :: rest) ->
    Pipeline.is_mapping v = false ->
    exists tr,
      LiveUpdater._process_ws_message message tt
      = (Ok tt, tt,
         tr ++ [Log (mkLog ERROR "Error processing WebSocket message: {}"
                       [X AttributeError])]) /\
      events_of tr
      = map (fun o => mkEvent FILL (PyDict o)) (filter LiveUpdater.is_fill orders).
Proof.
  intros rt message d orders v rest Hload Htype Hdata Hv.
  destruct (dispatch_orders_stops_at orders v rest Hv) as (tr & Hd & He).
  exists tr. split; [|exact He].
  unfold LiveUpdater._process_ws_message, M.try_except, M.bind, M.lift.
  rewrite Hload. cbn [get]. rewrite Htype. cbn [eq_str String.eqb Ascii.eqb Bool.eqb].
  rewrite Hdata. cbn [iter]. rewrite Hd. reflexivity.
Qed.

(** A batch [filled, 5, filled]: only the first fill is published. *)
Lemma broken_batch_loses_the_second_fill :
  exists tr,
    @LiveUpdater._process_ws_message Samples.runtime Samples.mixed_batch_message tt
    = (Ok tt, tt,
       tr ++ [Log (mkLog ERROR "Error processing WebSocket message: {}"
                     [X AttributeError])]) /\
    events_of tr = [mkEvent FILL (PyDict [("status", PyStr "filled")])].
Proof.
  exact (broken_batch_is_cut_short Samples.runtime Samples.mixed_batch_message
           [("event_type", PyStr "OrderUpdate");
            ("data", PyList [PyDict [("status", PyStr "filled")];
                             PyInt 5;
                             PyDict [("status", PyStr "filled")]])]
           [[("status", PyStr "filled")]] (PyInt 5)
           [PyDict [("status", PyStr "filled")]]
           eq_refl eq_refl eq_refl eq_refl).
Defined.

(** ** The exchange client: the connectivity check *)

Section Connect.
Context {rt : Runtime}.
Import Connectivity.

Variables (s : EopsLiveExchange.self) (net : probe) (sent : list GetRequest).





End Connect.



(** ** Parameters that are present but empty *)

Lemma all_three (a b c : pyval) :
  all [a; b; c] = true <-> truthy a = true /\ truthy b = true /\ truthy c = true.
Proof.
  cbn [all forallb]. rewrite andb_true_r, !andb_true_iff. tauto.
Qed.

Lemma all_three_false (a b c : pyval) :
  truthy a = false \/ truthy b = false \/ truthy c = false -> all [a; b; c] = false.
Proof.
  cbn [all forallb]. intros [-> | [-> | ->]]; rewrite ?andb_false_r; reflexivity.
Qed.

(** X9. Both parameter checks test truthiness, not presence: a value that
    is present but None, an empty string, 0, 0.0, False or an empty
    container is refused like a missing one, by the exchange client's
    constructor with ValueError and by the updater's loop with its error
    record and an immediate return.  When the constructor succeeds the
    client holds exactly the three configured values, all of them truthy;
    when the loop starts it has logged nothing. *)
Theorem empty_parameters_count_as_missing :
  forall (params : dict),
    (forall key,
        In key ["base_url"; "api_key"; "secret_key"] ->
        truthy (dict_get params key PyNone) = false ->
        EopsLiveExchange.__init__ params = Raise ValueError) /\
    (forall s,
        EopsLiveExchange.__init__ params = Ok s ->
        s = EopsLiveExchange.mkSelf (dict_get params "base_url" PyNone)
                                    (dict_get params "api_key" PyNone)
                                    (dict_get params "secret_key" PyNone) /\
        truthy (EopsLiveExchange.base_url s) = true /\
        truthy (EopsLiveExchange.api_key s) = true /\
        truthy (EopsLiveExchange.secret_key s) = true) /\
    (forall key,
        In key ["ws_url"; "jwt"; "symbol"] ->
        truthy (dict_get params key PyNone) = false ->
        LiveUpdater.prologue params tt
        = (Ok None, tt,
           [Log (mkLog ERROR
                   "Updater requires 'ws_url', 'jwt', and 'symbol' in STRATEGY_PARAMS."
                   [])])) /\
    (forall l,
        fst (fst (LiveUpdater.prologue params tt)) = Ok (Some l) ->
        LiveUpdater.prologue params tt = (Ok (Some l), tt, []) /\
        l = LiveUpdater.mkLocals (dict_get params "ws_url" PyNone)
                                 (dict_get params "jwt" PyNone)
                                 (dict_get params "symbol" PyNone) /\
        truthy (LiveUpdater.ws_url l) = true /\
        truthy (LiveUpdater.jwt l) = true /\
        truthy (LiveUpdater.symbol l) = true).
Proof.
  intros params. split; [|split; [|split]].
  - intros key Hin Hf. apply exchange_init_rejects. apply all_three_false.
    cbn [In] in Hin. destruct Hin as [<-|[<-|[<-|[]]]]; auto.
  - intros s. unfold EopsLiveExchange.__init__.
    cbn [EopsLiveExchange.base_url EopsLiveExchange.api_key EopsLiveExchange.secret_key].
    destruct (all _) eqn:E; cbn [negb]; [|discriminate].
    intros [= <-]. split; [reflexivity|]. apply all_three in E. exact E.
  - intros key Hin Hf. apply updater_prologue_returns. apply all_three_false.
    cbn [In] in Hin. destruct Hin as [<-|[<-|[<-|[]]]]; auto.
  - intros l. unfold LiveUpdater.prologue.
    cbn [LiveUpdater.ws_url LiveUpdater.jwt LiveUpdater.symbol].
    destruct (all _) eqn:E; cbn [negb]; [|discriminate].
    cbn. intros [= <-]. split; [reflexivity|]. split; [reflexivity|].
    apply all_three in E. exact E.
Qed.

(** An api_key given as the empty string. *)
Lemma empty_api_key_is_refused :
  EopsLiveExchange.__init__
    [("base_url", PyStr "https://exchange.example"); ("api_key", PyStr "");
     ("secret_key", PyStr "s3cret")]
  = Raise ValueError.
Proof.
  exact (proj1 (empty_parameters_count_as_missing
                  [("base_url", PyStr "https://exchange.example"); ("api_key", PyStr "");
                   ("secret_key", PyStr "s3cret")])
           "api_key" (or_intror (or_introl eq_refl)) eq_refl).
Defined.

(** ** A secret key that is not a string *)




(** ** What is signed and what is sent *)

(** X11. The request of an order carries what a verifier needs and
    nothing is signed that is not sent: its X-API-SIGN header is the HMAC,
    under the secret key, of its own X-API-TIMESTAMP header followed by
    POST, the path and the very body it carries; it goes to base_url
    followed by /api/v1/trade/orders with a timeout of 10 seconds and the
    configured X-API-KEY. *)
Theorem order_signature_covers_what_is_sent :
  forall (rt : Runtime) (base api : pyval) (key : string) (now : Z)
         (net : EopsLiveExchange.network) (sym side amount : pyval),
    exists req ts,
      posts_of (snd (EopsLiveExchange.create_market_order
                       (EopsLiveExchange.mkSelf base api (PyStr key))
                       now net sym side amount tt)) = [req] /\
      ts = str_int now /\
      lookup (headers req) "X-API-TIMESTAMP" = Some (PyStr ts) /\
      lookup (headers req) "X-API-SIGN"
      = Some (PyStr (Sha256.hmac_hexdigest key
                       (ts ++ "POST" ++ "/api/v1/trade/orders" ++ body req)%string)) /\
      lookup (headers req) "X-API-KEY" = Some api /\
      lookup (headers req) "Content-Type" = Some (PyStr "application/json") /\
      url req = (str base ++ "/api/v1/trade/orders")%string /\
      timeout req = 10.
Proof.
  intros rt base api key now net sym side amount.
  exists (EopsLiveExchange.signed_request base api key now sym side amount), (str_int now).
  split; [apply order_posts_once|].
  repeat split; reflexivity.
Qed.





(** ** The executor on the exchange client *)

(** X13. The executor cannot see a transport failure: when the POST
    raises a RequestException, [create_market_order] logs it and returns
    [{}], and the executor then logs that the order was successfully
    sent. *)
Theorem executor_reports_success_on_transport_failure :
  forall (rt : Runtime) (base api : pyval) (key : string) (now : Z)
         (net : EopsLiveExchange.network) (d : dict)
         (kind : string) (resp : option (Z * string)),
    let sym := dict_get d "symbol" PyNone in
    let side := dict_get d "side" PyNone in
    let amount := dict_get d "amount" PyNone in
    let req := EopsLiveExchange.signed_request base api key now sym side amount in
    net req = Raise (RequestException kind resp) ->
    LiveExecutor.process
      (Some (Pipeline.exchange_of (EopsLiveExchange.mkSelf base api (PyStr key)) now net))
      (mkEvent ORDER (PyDict d)) tt
    = (Ok tt, tt,
       [LiveExecutor.received_log (PyDict d);
        Order sym side amount;
        Post req;
        EopsLiveExchange.failure_log (RequestException kind resp)
                                     (EopsLiveExchange.response_text resp);
        Log (mkLog INFO "Order successfully sent to the exchange API." [])]).
Proof.
  intros rt base api key now net d kind resp sym side amount req Hn.
  pose proof (process_order
                (Pipeline.exchange_of (EopsLiveExchange.mkSelf base api (PyStr key)) now net)
                d) as H.
  cbv zeta in H. unfold Pipeline.exchange_of at 1 in H.
  fold sym side amount in H.
  rewrite (order_transport_failure base api key now net sym side amount kind resp Hn) in H.
  exact H.
Qed.

(** On a network where every connection times out. *)
Lemma executor_reports_success_on_timeout :
  LiveExecutor.process
    (Some (@Pipeline.exchange_of Demo.runtime
             (EopsLiveExchange.mkSelf (PyStr "https://exchange.example") (PyStr "key-1")
                                      (PyStr "s3cret"))
             1700000000 Demo.unreachable))
    (mkEvent ORDER (PyDict [("symbol", PyStr "BTC-USD"); ("side", PyStr "buy");
                            ("amount", PyInt 1)]))
    tt
  = (Ok tt, tt,
     [LiveExecutor.received_log (PyDict [("symbol", PyStr "BTC-USD"); ("side", PyStr "buy");
                                         ("amount", PyInt 1)]);
      Order (PyStr "BTC-USD") (PyStr "buy") (PyInt 1);
      Post (@EopsLiveExchange.signed_request Demo.runtime
              (PyStr "https://exchange.example") (PyStr "key-1") "s3cret" 1700000000
              (PyStr "BTC-USD") (PyStr "buy") (PyInt 1));
      EopsLiveExchange.failure_log (RequestException "ConnectTimeout" None) "N/A";
      Log (mkLog INFO "Order successfully sent to the exchange API." [])]).
Proof.
  exact (executor_reports_success_on_transport_failure Demo.runtime
           (PyStr "https://exchange.example") (PyStr "key-1") "s3cret" 1700000000
           Demo.unreachable
           [("symbol", PyStr "BTC-USD"); ("side", PyStr "buy"); ("amount", PyInt 1)]
           "ConnectTimeout" None eq_refl).
Defined.

(** X14. From the decider to the wire: the ORDER event of a decider,
    handled by the executor over a client whose secret key is a string,
    leads to exactly one posted request, the signed order for the
    decider's configured symbol, the side "buy" and its configured amount;
    and the executor returns normally whatever the network does. *)
Theorem decider_order_reaches_the_wire :
  forall (rt : Runtime) (dec : DcaDecider.self) (base api : pyval) (key : string)
         (now : Z) (net : EopsLiveExchange.network),
    let out :=
      LiveExecutor.process
        (Some (Pipeline.exchange_of (EopsLiveExchange.mkSelf base api (PyStr key)) now net))
        (DcaDecider.order_event dec) tt in
    fst (fst out) = Ok tt /\
    posts_of (snd out)
    = [EopsLiveExchange.signed_request base api key now
         (DcaDecider.symbol dec) (PyStr "buy") (DcaDecider.buy_amount dec)].
Proof.
  intros rt dec base api key now net out.
  pose proof (process_order
                (Pipeline.exchange_of (EopsLiveExchange.mkSelf base api (PyStr key)) now net)
                [("symbol", DcaDecider.symbol dec); ("side", PyStr "buy");
                 ("amount", DcaDecider.buy_amount dec)]) as H.
  cbv zeta in H.
  change (dict_get [("symbol", DcaDecider.symbol dec); ("side", PyStr "buy");
                    ("amount", DcaDecider.buy_amount dec)] "symbol" PyNone)
    with (DcaDecider.symbol dec) in H.
  change (dict_get [("symbol", DcaDecider.symbol dec); ("side", PyStr "buy");
                    ("amount", DcaDecider.buy_amount dec)] "side" PyNone)
    with (PyStr "buy") in H.
  change (dict_get [("symbol", DcaDecider.symbol dec); ("side", PyStr "buy");
                    ("amount", DcaDecider.buy_amount dec)] "amount" PyNone)
    with (DcaDecider.buy_amount dec) in H.
  pose proof (order_posts_once base api key now net (DcaDecider.symbol dec) (PyStr "buy")
                (DcaDecider.buy_amount dec)) as Hp.
  unfold Pipeline.exchange_of at 1 in H.
  destruct (EopsLiveExchange.create_market_order _ now net _ _ _ tt) as [[r u] tr_ex].
  cbn [snd] in Hp. unfold out, DcaDecider.order_event. rewrite H.
  split; [reflexivity|].
  cbn [snd app posts_of LiveExecutor.received_log].
  rewrite posts_of_app, Hp. destruct r; reflexivity.
Qed.

(** ** The connection loop: connections, subscriptions, messages *)

Section LoopMore.
Context {rt : Runtime}.
Import LiveUpdater.

Variables (l : locals) (w : env).

Lemma run_S (n t : nat) (p : pc) :
  run l w t (S n) p
  = (fst (run l w (S t) n (fst (step l w t p))),
     snd (step l w t p) ++ snd (run l w (S t) n (fst (step l w t p)))).
Proof.
  cbn [run]. destruct (step l w t p) as [p1 tr1]. cbn [fst snd].
  destruct (run l w (S t) n p1). reflexivity.
Qed.

Lemma dispatch_orders_logs_and_puts (orders : list pyval) :
  forallb Pipeline.log_or_put (snd (dispatch_orders orders tt)) = true.
Proof.
  induction orders as [|o os IH]; [reflexivity|].
  cbn [dispatch_orders]. unfold M.bind, M.lift, M.ret, log, put, M.emit in *.
  destruct (get o "status" PyNone) as [st|e]; [|reflexivity].
  destruct (in_strs st ["filled"; "partially_filled"]);
    destruct (dispatch_orders os tt) as [[r u] tr]; cbn in *; exact IH.
Qed.

Lemma process_ws_message_logs_and_puts (m : string) :
  forallb Pipeline.log_or_put (snd (_process_ws_message m tt)) = true.
Proof.
  unfold _process_ws_message, M.try_except, M.bind, M.lift, M.ret, log, put, M.emit.
  destruct (json_loads m) as [v|e]; [|destruct e; reflexivity].
  destruct (get v "event_type" PyNone) as [et|e]; [|destruct e; reflexivity].
  destruct (eq_str et "Ticker").
  - destruct (subscript v "data") as [x|e]; [reflexivity|]. destruct e; reflexivity.
  - destruct (eq_str et "OrderUpdate"); [|reflexivity].
    destruct (get v "data" (PyList [])) as [b|e]; [|destruct e; reflexivity].
    destruct (iter b) as [os|e]; [|destruct e; reflexivity].
    pose proof (dispatch_orders_logs_and_puts os) as H.
    destruct (dispatch_orders os tt) as [[r u] tr]. cbn [snd] in *.
    destruct r as [[]|e]; [exact H|].
    destruct e; cbn; rewrite forallb_app, H; reflexivity.
Qed.

Lemma logs_and_puts_only (tr : trace) :
  forallb Pipeline.log_or_put tr = true ->
  Pipeline.sends_of tr = [] /\ Pipeline.closes_of tr = 0%nat.
Proof.
  induction tr as [|a tr IH]; [split; reflexivity|].
  cbn [forallb]. intros H. apply andb_true_iff in H. destruct H as [Ha Htr].
  destruct a; try discriminate; cbn; apply IH; exact Htr.
Qed.

Lemma sends_of_app (a b : trace) :
  Pipeline.sends_of (a ++ b) = Pipeline.sends_of a ++ Pipeline.sends_of b.
Proof.
  induction a as [|x a IH]; simpl; [reflexivity|].
  destruct x; simpl; rewrite IH; reflexivity.
Qed.

Lemma closes_of_app (a b : trace) :
  Pipeline.closes_of (a ++ b) = (Pipeline.closes_of a + Pipeline.closes_of b)%nat.
Proof.
  induction a as [|x a IH]; simpl; [reflexivity|].
  destruct x; simpl; rewrite IH; reflexivity.
Qed.

Lemma on_loop_error_quiet (e : exn) :
  Pipeline.sends_of (on_loop_error e) = [] /\ Pipeline.closes_of (on_loop_error e) = 0%nat.
Proof. destruct e; split; reflexivity. Qed.

(** One step keeps the books: a subscription is sent when a connection is
    gained, a close is made when one is given up. *)
Lemma step_bookkeeping (t : nat) (p : pc) :
  (List.length (Pipeline.sends_of (snd (step l w t p))) + Pipeline.holds_connection p
   = Pipeline.closes_of (snd (step l w t p))
     + Pipeline.holds_connection (fst (step l w t p)))%nat /\
  Forall (fun m => m = json_dumps (sub_msg l)) (Pipeline.sends_of (snd (step l w t p))).
Proof.
  destruct p; cbn [step].
  - destruct (active w t); split; cbn; auto.
  - destruct (connect w t) as [u|e]; cbn [fst snd].
    + split; cbn; auto.
    + destruct (on_loop_error_quiet e) as [-> ->]. split; cbn; auto.
  - destruct (send w t) as [u|e]; cbn [fst snd].
    + split; cbn; auto.
    + destruct (on_loop_error_quiet e) as [Hs Hc]. cbn. rewrite Hs, Hc. split; cbn; auto.
  - destruct (recv w t) as [m| |e]; cbn [fst snd].
    + split; cbn; auto.
    + split; cbn; auto.
    + destruct (on_loop_error_quiet e) as [Hs Hc]. cbn. rewrite Hs, Hc. split; cbn; auto.
  - destruct (active w t); [|split; cbn; auto].
    destruct (logs_and_puts_only _ (process_ws_message_logs_and_puts m)) as [Hs Hc].
    destruct (_process_ws_message m tt) as [[[u|e] st] tr]; cbn [fst snd] in *.
    + rewrite Hs, Hc. split; cbn; auto.
    + destruct (on_loop_error_quiet e) as [Hs' Hc'].
      rewrite sends_of_app, closes_of_app, Hs, Hc. cbn. rewrite Hs', Hc'.
      split; cbn; auto.
  - split; cbn; auto.
  - split; cbn; auto.
Qed.

Lemma run_bookkeeping (n : nat) :
  forall (t : nat) (p : pc),
    (List.length (Pipeline.sends_of (snd (run l w t n p))) + Pipeline.holds_connection p
     = Pipeline.closes_of (snd (run l w t n p))
       + Pipeline.holds_connection (fst (run l w t n p)))%nat /\
    Forall (fun m => m = json_dumps (sub_msg l)) (Pipeline.sends_of (snd (run l w t n p))).
Proof.
  induction n as [|n IH]; intros t p; [split; cbn; auto|].
  rewrite run_S. cbn [fst snd].
  destruct (step_bookkeeping t p) as [H1 H2].
  destruct (IH (S t) (fst (step l w t p))) as [H3 H4].
  rewrite sends_of_app, closes_of_app, length_app. split; [lia|].
  apply Forall_app. split; assumption.
Qed.

End LoopMore.

(** Messages that arrive while the strategy is active are decoded one
    after the other. *)
Lemma run_steady {rt : Runtime} (l : LiveUpdater.locals) (msgs : nat -> string) (n : nat) :
  forall t : nat,
    LiveUpdater.run l (Pipeline.steady msgs) t (2 * n) LiveUpdater.Receiving
    = (LiveUpdater.Receiving, Pipeline.decoded msgs t n).
Proof.
  induction n as [|n IH]; intros t; [reflexivity|].
  replace (2 * S n)%nat with (S (S (2 * n))) by lia.
  rewrite run_S. cbn [LiveUpdater.step Pipeline.steady LiveUpdater.recv fst snd].
  rewrite run_S. cbn [LiveUpdater.step Pipeline.steady LiveUpdater.active fst snd].
  destruct (process_ws_message_returns (msgs t)) as (tr & Hp).
  rewrite Hp. cbn [fst snd]. rewrite IH. cbn [fst snd Pipeline.decoded app].
  rewrite Hp. reflexivity.
Qed.

Lemma run_closing {rt : Runtime} (l : LiveUpdater.locals) (w : LiveUpdater.env) :
  (forall t, LiveUpdater.active w t = true) ->
  (forall t, LiveUpdater.connect w t = Ok tt) ->
  (forall t, LiveUpdater.send w t = Ok tt) ->
  (forall t, LiveUpdater.recv w t = LiveUpdater.Exhausted) ->
  forall (n t : nat),
  exists tr,
    LiveUpdater.run l w t (4 * n) LiveUpdater.AtWhile = (LiveUpdater.AtWhile, tr) /\
    connects_of tr = n /\ Pipeline.closes_of tr = n /\ sleeps_of tr = [].
Proof.
  intros Hact Hcon Hsend Hrecv. induction n as [|n IH]; intros t.
  - exists []. repeat split.
  - replace (4 * S n)%nat with (S (S (S (S (4 * n))))) by lia.
    destruct (IH (S (S (S (S t))))) as (tr & Hr & Hc & Hcl & Hs).
    rewrite run_S. cbn [LiveUpdater.step]. rewrite Hact. cbn [fst snd].
    rewrite run_S. cbn [LiveUpdater.step]. rewrite Hcon. cbn [fst snd].
    rewrite run_S. cbn [LiveUpdater.step]. rewrite Hsend. cbn [fst snd].
    rewrite run_S. cbn [LiveUpdater.step]. rewrite Hrecv. cbn [fst snd].
    rewrite Hr. cbn [fst snd]. eexists. split; [reflexivity|].
    cbn. rewrite Hc, Hcl, Hs. repeat split.
Qed.

(** X15. A connection that the server closes cleanly is replaced at once:
    the loop closes it, tests the flag and connects again, with no sleep
    and no error record.  Against a server that closes every connection as
    soon as it is subscribed, the loop therefore reconnects round after
    round without ever sleeping. *)
Theorem clean_close_reconnects_without_delay :
  forall (rt : Runtime) (l : LiveUpdater.locals) (w : LiveUpdater.env),
    (forall t,
        LiveUpdater.recv w t = LiveUpdater.Exhausted ->
        LiveUpdater.active w (S t) = true ->
        LiveUpdater.run l w t 2 LiveUpdater.Receiving
        = (LiveUpdater.Connecting,
           [Close; Connect (LiveUpdater.ws_url l) (LiveUpdater.headers_of l)])) /\
    ((forall t, LiveUpdater.active w t = true) ->
     (forall t, LiveUpdater.connect w t = Ok tt) ->
     (forall t, LiveUpdater.send w t = Ok tt) ->
     (forall t, LiveUpdater.recv w t = LiveUpdater.Exhausted) ->
     forall n,
     exists tr,
       LiveUpdater.run l w 0 (4 * n) LiveUpdater.AtWhile = (LiveUpdater.AtWhile, tr) /\
       connects_of tr = n /\ Pipeline.closes_of tr = n /\ sleeps_of tr = []).
Proof.
  intros rt l w. split.
  - intros t Hrecv Hact.
    rewrite run_S. cbn [LiveUpdater.step]. rewrite Hrecv. cbn [fst snd].
    rewrite run_S. cbn [LiveUpdater.step]. rewrite Hact. reflexivity.
  - intros Hact Hcon Hsend Hrecv n.
    exact (run_closing l w Hact Hcon Hsend Hrecv n 0%nat).
Qed.

(** Twelve steps against a server that always closes: three connections,
    three closes, no sleep. *)
Lemma three_clean_closes :
  exists tr,
    @LiveUpdater.run Demo.runtime
      (LiveUpdater.mkLocals (PyStr "wss://exchange.example/ws") (PyStr "token")
                            (PyStr "BTC-USD"))
      Pipeline.closing 0 12 LiveUpdater.AtWhile
    = (LiveUpdater.AtWhile, tr) /\
    connects_of tr = 3%nat /\ Pipeline.closes_of tr = 3%nat /\ sleeps_of tr = [].
Proof.
  exact (proj2 (clean_close_reconnects_without_delay Demo.runtime
                  (LiveUpdater.mkLocals (PyStr "wss://exchange.example/ws") (PyStr "token")
                                        (PyStr "BTC-USD"))
                  Pipeline.closing)
           (fun _ => eq_refl) (fun _ => eq_refl) (fun _ => eq_refl) (fun _ => eq_refl)
           3%nat).
Defined.

(** X16. The loop keeps its connections in order, whatever the
    environment does: after any number of steps it has closed every
    connection it opened, except the one it may hold at that moment; in
    particular none is left open when it sleeps, tests its flag, connects
    or has returned.  The only thing it ever sends is the subscription to
    the ticker topic of its symbol and to private:orders, once per
    connection. *)
Theorem every_connection_is_subscribed_once_and_closed :
  forall (rt : Runtime) (l : LiveUpdater.locals) (w : LiveUpdater.env) (n : nat),
    let out := LiveUpdater.run l w 0 n LiveUpdater.AtWhile in
    List.length (Pipeline.sends_of (snd out))
    = (Pipeline.closes_of (snd out) + Pipeline.holds_connection (fst out))%nat /\
    Forall (fun m =>
              m = json_dumps
                    (PyDict [("op", PyStr "subscribe");
                             ("args", PyList [PyStr ("tickers:" ++ str (LiveUpdater.symbol l));
                                              PyStr "private:orders"])]))
           (Pipeline.sends_of (snd out)).
Proof.
  intros rt l w n out.
  destruct (run_bookkeeping l w n 0%nat LiveUpdater.AtWhile) as [H1 H2].
  cbn [Pipeline.holds_connection] in H1. rewrite Nat.add_0_r in H1.
  split; [exact H1|exact H2].
Qed.

(** X17. On a connection that stays up while the strategy is active, the
    loop connects once, subscribes, and then does nothing but decode the
    messages in the order of their arrival, each exactly once: its trace is
    the connection, the subscription and then the traces of the single
    messages, one after the other. *)
Theorem steady_connection_decodes_every_message :
  forall (rt : Runtime) (l : LiveUpdater.locals) (msgs : nat -> string) (n : nat),
    LiveUpdater.run l (Pipeline.steady msgs) 0 (3 + 2 * n) LiveUpdater.AtWhile
    = (LiveUpdater.Receiving,
       [Connect (LiveUpdater.ws_url l) (LiveUpdater.headers_of l);
        Log (mkLog INFO "Successfully connected to WebSocket at {}"
               [V (LiveUpdater.ws_url l)]);
        Send (json_dumps (LiveUpdater.sub_msg l));
        Log (mkLog INFO "Subscribed to topics: {}" [V (LiveUpdater.topics l)])]
         ++ Pipeline.decoded msgs 3 n).
Proof.
  intros rt l msgs n.
  change (3 + 2 * n)%nat with (S (S (S (2 * n)))).
  rewrite run_S. cbn [LiveUpdater.step Pipeline.steady LiveUpdater.active fst snd].
  rewrite run_S. cbn [LiveUpdater.step Pipeline.steady LiveUpdater.connect fst snd].
  rewrite run_S. cbn [LiveUpdater.step Pipeline.steady LiveUpdater.send fst snd].
  fold (Pipeline.steady msgs). rewrite run_steady. reflexivity.
Qed.
